(** * HostyHosting backend: identity, session and application mutations

    A shallow embedding of
      - packages/backend/src/entity/User.ts
      - packages/backend/src/resolvers/ApplicationMutationsResolver.ts
    The persisted store is a record of tables (finite maps keyed by the
    generated primary key); the asynchronous methods become computations in a
    state-and-exception monad over the request's world (store, session,
    cookies).  A JavaScript [throw] keeps every mutation made before it, so
    the monad returns the state also on failure. *)

From stdpp Require Import gmap strings list pretty.
From Stdlib Require Import ZArith.

Local Open Scope string_scope.
Local Open Scope Z_scope.

(** ** JavaScript values *)

Module Js.

(** Truthiness of a [number | undefined]: [undefined] and [0] are falsy. *)
Definition truthy_num (n : option Z) : bool :=
  match n with
  | Some k => negb (k =? 0)
  | None => false
  end.

(** Truthiness of a [string | null | undefined]: the empty string is falsy. *)
Definition truthy_str (s : option string) : bool :=
  match s with
  | Some EmptyString => false
  | Some _ => true
  | None => false
  end.

(** [String(x)] for a [number | undefined]. *)
Definition String (n : option Z) : string :=
  match n with
  | Some k => pretty k
  | None => "undefined"
  end.

(** A property of an input object as it arrives from the query layer:
    the key is missing, or it is present and holds [null], or it is present
    and holds a value. *)
Inductive prop (A : Type) : Type :=
| Omitted
| Null
| Given (a : A).
Arguments Omitted {A}.
Arguments Null {A}.
Arguments Given {A} a.

(** ['k' in obj] *)
Definition has_key {A} (p : prop A) : bool :=
  match p with
  | Omitted => false
  | _ => true
  end.

(** [obj.k], a missing key and [null] both read as no value *)
Definition read {A} (p : prop A) : option A :=
  match p with
  | Given a => Some a
  | _ => None
  end.

(** [typeof obj.k !== 'undefined' && obj.k !== null] *)
Definition defined_non_null {A} (p : prop A) : bool :=
  match p with
  | Given _ => true
  | _ => false
  end.

End Js.

(** ** Failures *)

Inductive Error : Type :=
| EntityNotFound              (* findOneOrFail found no row *)
| JsError (message : string)  (* throw new Error(message) *)
| IllegalArguments            (* bcryptjs rejects a hash that is not a string *)
| Unauthorized                (* a member below the required permission *)
| StoreFailure                (* the store rejected a write *)
| Unauthenticated.            (* the request carries no resolved grant *)

Inductive Result (A : Type) : Type :=
| Ok (a : A)
| Throw (e : Error).
Arguments Ok {A} a.
Arguments Throw {A} e.

(** ** The monad *)

Definition M (S A : Type) : Type := S -> Result A * S.

Definition ret {S A} (a : A) : M S A := fun s => (Ok a, s).

Definition bind {S A B} (m : M S A) (k : A -> M S B) : M S B :=
  fun s =>
    match m s with
    | (Ok a, s') => k a s'
    | (Throw e, s') => (Throw e, s')
    end.

Definition throw {S A} (e : Error) : M S A := fun s => (Throw e, s).
Definition get {S} : M S S := fun s => (Ok s, s).
Definition gets {S A} (f : S -> A) : M S A := fun s => (Ok (f s), s).
Definition modify {S} (f : S -> S) : M S unit := fun s => (Ok tt, f s).

(** Run a computation over a part of the state. *)
Definition zoom {S T A} (proj : S -> T) (inj : T -> S -> S) (m : M T A) : M S A :=
  fun s => let (r, t) := m (proj s) in (r, inj t s).

Declare Scope js_scope.
Delimit Scope js_scope with js.
Notation "x <~ c ;; k" := (bind c (fun x => k))
  (at level 100, c at next level, right associativity) : js_scope.
Notation "c ;;; k" := (bind c (fun _ => k))
  (at level 100, right associativity) : js_scope.
Local Open Scope js_scope.

(** ** Enumerations *)

Inductive AuthType : Type := FULL | TOTP | PASSWORD_RESET.
Inductive GrantType : Type := NONE | SESSION | API_KEY.

#[global] Instance AuthType_eq_dec : EqDecision AuthType.
Proof. solve_decision. Defined.
#[global] Instance GrantType_eq_dec : EqDecision GrantType.
Proof. solve_decision. Defined.

(** Modelled from the spec: entity/OrganizationMembership.ts is not among the
    sources; the permission levels are ordered read < write < admin. *)
Inductive OrganizationPermission : Type := READ | WRITE | ADMIN.

Definition permission_rank (p : OrganizationPermission) : nat :=
  match p with
  | READ => 1
  | WRITE => 2
  | ADMIN => 3
  end.

(** NOTE in the source: chosen based on a stack overflow post. *)
Definition SALT_ROUNDS : Z := 10.

(** ** Entities

    Only User.ts is among the sources; the other entity classes are known
    through the fields the two source files read and write.  A relation is
    held as the primary key of the row it points to.  [id] is [None] on an
    object that was never saved. *)

Module Organization.
Record t : Type := mk {
  id : option Z;
  name : string;
  isPersonal : bool;
  username : string;
}.
Definition new : t := mk None "" false "".
End Organization.

Module User.
Record t : Type := mk {
  grantType : GrantType;      (* transient: not a column *)
  id : option Z;
  githubID : option string;
  name : string;
  username : string;
  email : string;
  passwordHash : option string;
  totpSecret : option string;
  personalOrganization : option Z;
}.
(** [new User()]: [grantType] carries its initializer, every column is unset. *)
Definition new : t := mk NONE None None "" "" "" None None None.

Definition set_grantType (g : GrantType) (u : t) : t :=
  mk g (id u) (githubID u) (name u) (username u) (email u)
     (passwordHash u) (totpSecret u) (personalOrganization u).
Definition set_id (i : option Z) (u : t) : t :=
  mk (grantType u) i (githubID u) (name u) (username u) (email u)
     (passwordHash u) (totpSecret u) (personalOrganization u).
Definition set_passwordHash (h : option string) (u : t) : t :=
  mk (grantType u) (id u) (githubID u) (name u) (username u) (email u)
     h (totpSecret u) (personalOrganization u).
Definition set_totpSecret (x : option string) (u : t) : t :=
  mk (grantType u) (id u) (githubID u) (name u) (username u) (email u)
     (passwordHash u) x (personalOrganization u).
End User.

Module OrganizationMembership.
Record t : Type := mk {
  id : option Z;
  user : option Z;
  organization : option Z;
  permission : OrganizationPermission;
}.
End OrganizationMembership.

Module Application.
(** [name] and [description] hold what was assigned to them: a string, or
    [None] for [null]. *)
Record t : Type := mk {
  id : option Z;
  name : option string;
  description : option string;
  organization : option Z;
}.
Definition set_name (x : option string) (a : t) : t :=
  mk (id a) x (description a) (organization a).
Definition set_description (x : option string) (a : t) : t :=
  mk (id a) (name a) x (organization a).
End Application.

Module Component.
(** The columns are declared as strings; an assignment from an input object
    can store [null] in them, which is [None] here. *)
Record t : Type := mk {
  id : option Z;
  application : option Z;
  name : option string;
  image : option string;
  deploymentStrategy : option string;
}.
Definition set_name (x : option string) (c : t) : t :=
  mk (id c) (application c) x (image c) (deploymentStrategy c).
Definition set_image (x : option string) (c : t) : t :=
  mk (id c) (application c) (name c) x (deploymentStrategy c).
Definition set_deploymentStrategy (x : option string) (c : t) : t :=
  mk (id c) (application c) (name c) (image c) x.
End Component.

Module ContainerGroup.
(** The environment, size and container count, which only
    createContainerGroup assigns, are left out. *)
Record t : Type := mk {
  id : option Z;
  organization : option Z;
  component : option Z;
}.
End ContainerGroup.

Module Secret.
Record t : Type := mk {
  id : option Z;
  key : string;
  value : string;
  containerGroup : option Z;
}.
Definition set_key (x : string) (s : t) : t := mk (id s) x (value s) (containerGroup s).
Definition set_value (x : string) (s : t) : t := mk (id s) (key s) x (containerGroup s).
End Secret.

(** The request's session object and the cookie jar of the response. *)
Module Session.
Record t : Type := mk {
  userID : option Z;
  type : option AuthType;
}.
End Session.

Module Cookies.
Record options : Type := mkOptions { httpOnly : bool; signed : bool }.
Record cookie : Type := mkCookie {
  cname : string;
  cvalue : string;
  copts : options;
}.
(** The jar records every [set] call, latest first. *)
Definition t : Type := list cookie.
Definition set (n v : string) (o : options) (jar : t) : t := mkCookie n v o :: jar.
End Cookies.

(** ** The store *)

(** A table: its rows by primary key, and the next value of the key's
    sequence ([PrimaryGeneratedColumn]). *)
Record Table (A : Type) : Type := mkTable {
  rows : gmap Z A;
  next_id : Z;
}.
Arguments mkTable {A} rows next_id.
Arguments rows {A} t.
Arguments next_id {A} t.

Definition empty_table {A} : Table A := mkTable ∅ 1.

(** [faults] is the environment's schedule for the writes to come: each
    write takes the head, and [true] makes that write fail.  An exhausted
    schedule means a healthy store. *)
Record Store : Type := mkStore {
  organizations : Table Organization.t;
  users : Table User.t;
  memberships : Table OrganizationMembership.t;
  applications : Table Application.t;
  components : Table Component.t;
  containerGroups : Table ContainerGroup.t;
  secrets : Table Secret.t;
  faults : list bool;
}.

Definition set_organizations (x : Table Organization.t) (s : Store) : Store :=
  mkStore x (users s) (memberships s) (applications s) (components s)
          (containerGroups s) (secrets s) (faults s).
Definition set_users (x : Table User.t) (s : Store) : Store :=
  mkStore (organizations s) x (memberships s) (applications s) (components s)
          (containerGroups s) (secrets s) (faults s).
Definition set_memberships (x : Table OrganizationMembership.t) (s : Store) : Store :=
  mkStore (organizations s) (users s) x (applications s) (components s)
          (containerGroups s) (secrets s) (faults s).
Definition set_applications (x : Table Application.t) (s : Store) : Store :=
  mkStore (organizations s) (users s) (memberships s) x (components s)
          (containerGroups s) (secrets s) (faults s).
Definition set_components (x : Table Component.t) (s : Store) : Store :=
  mkStore (organizations s) (users s) (memberships s) (applications s) x
          (containerGroups s) (secrets s) (faults s).
Definition set_containerGroups (x : Table ContainerGroup.t) (s : Store) : Store :=
  mkStore (organizations s) (users s) (memberships s) (applications s)
          (components s) x (secrets s) (faults s).
Definition set_secrets (x : Table Secret.t) (s : Store) : Store :=
  mkStore (organizations s) (users s) (memberships s) (applications s)
          (components s) (containerGroups s) x (faults s).
Definition set_faults (x : list bool) (s : Store) : Store :=
  mkStore (organizations s) (users s) (memberships s) (applications s)
          (components s) (containerGroups s) (secrets s) x.

Definition empty_store : Store :=
  mkStore empty_table empty_table empty_table empty_table empty_table
          empty_table empty_table [].

(** ** BaseEntity: the active-record interface

    Every entity class extends BaseEntity, which gives it [save], [findOne],
    [findOneOrFail] and [delete] against its own table. *)
Class Entity (A : Type) : Type := {
  ent_id : A -> option Z;
  ent_with_id : Z -> A -> A;
  (* what a freshly loaded object carries in its fields that are no columns *)
  ent_hydrate : A -> A;
  ent_table : Store -> Table A;
  ent_set_table : Table A -> Store -> Store;
}.

#[global] Instance Organization_entity : Entity Organization.t := {
  ent_id := Organization.id;
  ent_with_id i o :=
    Organization.mk (Some i) (Organization.name o) (Organization.isPersonal o)
                    (Organization.username o);
  ent_hydrate o := o;
  ent_table := organizations;
  ent_set_table := set_organizations;
}.

#[global] Instance User_entity : Entity User.t := {
  ent_id := User.id;
  ent_with_id i := User.set_id (Some i);
  ent_hydrate := User.set_grantType NONE;
  ent_table := users;
  ent_set_table := set_users;
}.

#[global] Instance OrganizationMembership_entity : Entity OrganizationMembership.t := {
  ent_id := OrganizationMembership.id;
  ent_with_id i m :=
    OrganizationMembership.mk (Some i) (OrganizationMembership.user m)
      (OrganizationMembership.organization m) (OrganizationMembership.permission m);
  ent_hydrate m := m;
  ent_table := memberships;
  ent_set_table := set_memberships;
}.

#[global] Instance Application_entity : Entity Application.t := {
  ent_id := Application.id;
  ent_with_id i a :=
    Application.mk (Some i) (Application.name a) (Application.description a)
                   (Application.organization a);
  ent_hydrate a := a;
  ent_table := applications;
  ent_set_table := set_applications;
}.

#[global] Instance Component_entity : Entity Component.t := {
  ent_id := Component.id;
  ent_with_id i c :=
    Component.mk (Some i) (Component.application c) (Component.name c)
                 (Component.image c) (Component.deploymentStrategy c);
  ent_hydrate c := c;
  ent_table := components;
  ent_set_table := set_components;
}.

#[global] Instance ContainerGroup_entity : Entity ContainerGroup.t := {
  ent_id := ContainerGroup.id;
  ent_with_id i g :=
    ContainerGroup.mk (Some i) (ContainerGroup.organization g) (ContainerGroup.component g);
  ent_hydrate g := g;
  ent_table := containerGroups;
  ent_set_table := set_containerGroups;
}.

#[global] Instance Secret_entity : Entity Secret.t := {
  ent_id := Secret.id;
  ent_with_id i x :=
    Secret.mk (Some i) (Secret.key x) (Secret.value x) (Secret.containerGroup x);
  ent_hydrate x := x;
  ent_table := secrets;
  ent_set_table := set_secrets;
}.

(** One write reaches the store: it takes the head of the fault schedule. *)
Definition write_gate : M Store unit :=
  fun s =>
    match faults s with
    | true :: fs => (Throw StoreFailure, set_faults fs s)
    | false :: fs => (Ok tt, set_faults fs s)
    | [] => (Ok tt, s)
    end.

(** [entity.save()]: an object without id is inserted under the next key of
    the sequence and receives that key; an object with an id replaces the row
    of that key.  The saved object is returned. *)
Definition save {A} `{Entity A} (e : A) : M Store A :=
  write_gate ;;;
  t <~ gets ent_table ;;
  match ent_id e with
  | Some i =>
      modify (ent_set_table (mkTable (<[i := e]> (rows t)) (next_id t))) ;;;
      ret e
  | None =>
      let e' := ent_with_id (next_id t) e in
      modify (ent_set_table (mkTable (<[next_id t := e']> (rows t)) (next_id t + 1))) ;;;
      ret e'
  end.

(** [Entity.findOne(id)] *)
Definition findOne {A} `{Entity A} (i : Z) : M Store (option A) :=
  t <~ gets ent_table ;;
  ret (ent_hydrate <$> rows t !! i).

(** [Entity.findOne({ where })] for a condition that fixes the primary key
    and constrains further columns. *)
Definition findOneWhere {A} `{Entity A} (i : Z) (cond : A -> bool) : M Store (option A) :=
  t <~ gets ent_table ;;
  ret (ent_hydrate <$> (x ← rows t !! i; if cond x then Some x else None)).

(** [Entity.findOne({ where })] for a condition on other columns: the first
    matching row in the store's scan order. *)
Definition findOneBy {A} `{Entity A} (cond : A -> bool) : M Store (option A) :=
  t <~ gets ent_table ;;
  ret (ent_hydrate <$> head (filter (fun x => cond x = true) (map_to_list (rows t)).*2)).

Definition orFail {A} (m : M Store (option A)) : M Store A :=
  r <~ m ;;
  match r with
  | Some x => ret x
  | None => throw EntityNotFound
  end.

(** [Entity.delete(id)]: removes the row of that key from the entity's own
    table, and nothing else. *)
Definition delete_by_id (A : Type) `{Entity A} (i : option Z) : M Store unit :=
  write_gate ;;;
  t <~ gets (ent_table (A := A)) ;;
  match i with
  | Some k => modify (ent_set_table (mkTable (base.delete k (rows t)) (next_id t)))
  | None => ret tt
  end.

(** ** Objects and their methods

    A method runs over its receiver and the surrounding state: an assignment
    to [this.f] changes the first component. *)
Definition this {T S} : M (T * S) T := gets fst.
Definition set_this {T S} (f : T -> T) : M (T * S) unit :=
  modify (fun p => (f p.1, p.2)).
Definition lift {T S A} (m : M S A) : M (T * S) A :=
  zoom snd (fun s p => (p.1, s)) m.

(** [obj.method(...)] on a local object: the result together with the object
    as the method left it. *)
Definition call {T S A} (obj : T) (m : M (T * S) A) : M S (A * T) :=
  fun s =>
    match m (obj, s) with
    | (Ok a, (obj', s')) => (Ok (a, obj'), s')
    | (Throw e, (_, s')) => (Throw e, s')
    end.

(** ** The world of one request *)

Record World : Type := mkWorld {
  store : Store;
  session : Session.t;
  cookies : Cookies.t;
}.

Definition set_store (x : Store) (w : World) : World := mkWorld x (session w) (cookies w).
Definition set_session (x : Session.t) (w : World) : World := mkWorld (store w) x (cookies w).
Definition set_cookies (x : Cookies.t) (w : World) : World := mkWorld (store w) (session w) x.

Definition in_store {A} (m : M Store A) : M World A := zoom store set_store m.

(** ** The libraries the code calls

    bcryptjs ([hash], [compare]) and otplib ([authenticator.verify]) are
    third-party code.  [bcrypt_hash] takes the password, the cost and the
    salt that the library draws; [totp_verify] takes the secret and the token
    (the clock is fixed for the duration of one call). *)
Class Crypto : Type := {
  bcrypt_hash : string -> Z -> string -> string;
  bcrypt_compare : string -> string -> bool;
  totp_verify : string -> string -> bool;
}.

(** [compare(s, hash)] of bcryptjs: a hash that is not a string is rejected. *)
Definition compare `{Crypto} {S} (s : string) (hash : option string) : M S bool :=
  match hash with
  | Some h => ret (bcrypt_compare s h)
  | None => throw IllegalArguments
  end.

(** ** entity/User.ts *)

Record SignUpInput : Type := mkSignUpInput {
  in_username : string;
  in_name : string;
  in_email : string;
  in_password : option string;
  in_githubID : option string;
}.

Section UserMethods.
Context `{Crypto}.

Definition fromSession (allowedType : AuthType) : M World (option User.t) :=
  s <~ gets session ;;
  if Js.truthy_num (Session.userID s) && bool_decide (Session.type s = Some allowedType)
  then
    user <~ in_store (findOne (default 0 (Session.userID s))) ;;
    ret (User.set_grantType SESSION <$> user)
  else ret None.

Definition fromTOTPSession (token : string) : M World User.t :=
  s <~ gets session ;;
  if negb (Js.truthy_num (Session.userID s)) || negb (bool_decide (Session.type s = Some TOTP))
  then throw (JsError "No TOTP session currently exists.")
  else
    user <~ in_store (findOne (default 0 (Session.userID s))) ;;
    match user with
    | Some u =>
        if negb (Js.truthy_str (User.totpSecret u))
        then throw (JsError "No user was found in the current session.")
        else
          let isValid := totp_verify (default "" (User.totpSecret u)) token in
          if negb isValid
          then throw (JsError "The TOTP token provided was not valid.")
          else ret u
    | None => throw (JsError "No user was found in the current session.")
    end.

Definition removeUserCookie : M World unit :=
  c <~ gets cookies ;;
  modify (set_cookies (Cookies.set "userID" "0" (Cookies.mkOptions false false) c)).

Definition setPassword (newPassword salt : string) : M (User.t * World) unit :=
  set_this (User.set_passwordHash (Some (bcrypt_hash newPassword SALT_ROUNDS salt))).

Definition hasTOTP (u : User.t) : bool := Js.truthy_str (User.totpSecret u).

Definition disableTOTP (password : string) : M (User.t * World) unit :=
  u <~ this ;;
  if negb (Js.truthy_str (User.totpSecret u))
  then ret tt
  else
    passwordValid <~ compare password (User.passwordHash u) ;;
    if negb passwordValid
    then throw (JsError "Password is not valid!")
    else
      set_this (User.set_totpSecret None) ;;;
      u <~ this ;;
      saved <~ lift (in_store (save u)) ;;
      set_this (fun _ => saved).

Definition checkPassword (password : string) : M (User.t * World) bool :=
  u <~ this ;;
  compare password (User.passwordHash u).

Definition signIn (type : AuthType) : M (User.t * World) unit :=
  u <~ this ;;
  lift (s <~ gets session ;;
        modify (set_session (Session.mk (User.id u) (Session.type s)))) ;;;
  lift (s <~ gets session ;;
        modify (set_session (Session.mk (Session.userID s) (Some type)))) ;;;
  if bool_decide (type = FULL)
  then
    lift (c <~ gets cookies ;;
          modify (set_cookies
            (Cookies.set "userID" (Js.String (User.id u)) (Cookies.mkOptions false false) c)))
  else ret tt.

Definition signOut : M (User.t * World) unit := lift removeUserCookie.

Definition signUp (input : SignUpInput) (salt : string) : M World unit :=
  (* First create the users' personal organization: *)
  let organization := Organization.mk None "Personal" true (in_username input) in
  organization <~ in_store (save organization) ;;
  (* Then create the user themself: *)
  let user :=
    User.mk NONE None (in_githubID input) (in_name input) (in_username input)
            (in_email input) None None (Organization.id organization) in
  user <~ (if Js.truthy_str (in_password input)
           then r <~ call user (setPassword (default "" (in_password input)) salt) ;;
                ret r.2
           else ret user) ;;
  user <~ in_store (save user) ;;
  (* Finally, add the user into their own organization: *)
  let membership :=
    OrganizationMembership.mk None (User.id user) (Organization.id organization) ADMIN in
  _ <~ in_store (save membership) ;;
  _ <~ call user (signIn FULL) ;;
  ret tt.

End UserMethods.

(** ** resolvers/ApplicationMutationsResolver.ts *)

(** The input objects of the mutations (resolvers/types, not among the
    sources): every field is optional, as the resolver's own presence checks
    show. *)
Record ApplicationInput : Type := mkApplicationInput {
  ai_name : Js.prop string;
  ai_description : Js.prop string;
}.

Record ComponentInput : Type := mkComponentInput {
  ci_name : Js.prop string;
  ci_image : Js.prop string;
  ci_deploymentStrategy : Js.prop string;
}.

(** Modelled from the spec: Application.userHasPermission (entity/Application.ts)
    is not among the sources.  The Permission Evaluator looks up the
    Membership of the pair (identity, organization); a missing Membership is
    answered with not-found, and a level below the required one with
    unauthorized. *)
Definition userHasPermission (application : Application.t) (user : User.t)
    (required : OrganizationPermission) : M Store unit :=
  m <~ findOneBy (fun m : OrganizationMembership.t =>
         bool_decide (OrganizationMembership.user m = User.id user
                      /\ OrganizationMembership.organization m
                         = Application.organization application)) ;;
  match m with
  | Some m =>
      if (permission_rank required <=? permission_rank (OrganizationMembership.permission m))%nat
      then ret tt
      else throw Unauthorized
  | None => throw EntityNotFound
  end.

(** Modelled from the spec: Component.findByApplicationAndId
    (entity/Component.ts) is not among the sources.  It loads the Component
    of that id under that Application, and fails with not-found otherwise. *)
Definition findByApplicationAndId (application : Application.t) (id : Z) : M Store Component.t :=
  orFail (findOneWhere id (fun c : Component.t =>
            bool_decide (Component.application c = Application.id application))).

Module ApplicationMutations.

Record t : Type := mk { application : Application.t }.

Definition update (applicationInput : ApplicationInput) : M (t * Store) Application.t :=
  (if Js.defined_non_null (ai_name applicationInput)
   then set_this (fun o => mk (Application.set_name (Js.read (ai_name applicationInput))
                                                    (application o)))
   else ret tt) ;;;
  (if Js.defined_non_null (ai_description applicationInput)
   then set_this (fun o => mk (Application.set_description
                                 (Js.read (ai_description applicationInput))
                                 (application o)))
   else ret tt) ;;;
  o <~ this ;;
  lift (save (application o)).

Definition createComponent (componentInput : ComponentInput) : M (t * Store) Component.t :=
  o <~ this ;;
  let component :=
    Component.mk None (Application.id (application o))
                 (Js.read (ci_name componentInput))
                 (Js.read (ci_image componentInput))
                 (Js.read (ci_deploymentStrategy componentInput)) in
  lift (save component).

Definition updateComponent (id : Z) (componentInput : ComponentInput)
    : M (t * Store) Component.t :=
  o <~ this ;;
  component <~ lift (findByApplicationAndId (application o) id) ;;
  let component :=
    if Js.has_key (ci_name componentInput)
    then Component.set_name (Js.read (ci_name componentInput)) component
    else component in
  let component :=
    if Js.has_key (ci_image componentInput)
    then Component.set_image (Js.read (ci_image componentInput)) component
    else component in
  let component :=
    if Js.has_key (ci_deploymentStrategy componentInput)
    then Component.set_deploymentStrategy
           (Js.read (ci_deploymentStrategy componentInput)) component
    else component in
  lift (save component).

Definition addSecret (containerGroupID : Z) (key value : string) : M (t * Store) Secret.t :=
  (* the source notes that this lookup of the container group is not scoped *)
  containerGroup <~ lift (orFail (findOne (A := ContainerGroup.t) containerGroupID)) ;;
  let secret := Secret.mk None key value (ContainerGroup.id containerGroup) in
  lift (save secret).

Definition editSecret (containerGroupID id : Z) (key value : string)
    : M (t * Store) Secret.t :=
  secret <~ lift (orFail (findOneWhere id (fun s : Secret.t =>
              bool_decide (Secret.containerGroup s = Some containerGroupID)))) ;;
  let secret := Secret.set_key key secret in
  let secret := Secret.set_value value secret in
  lift (save secret).

Definition deleteSecret (containerGroupID id : Z) : M (t * Store) Secret.t :=
  secret <~ lift (orFail (findOneWhere id (fun s : Secret.t =>
              bool_decide (Secret.containerGroup s = Some containerGroupID)))) ;;
  lift (delete_by_id Secret.t (Secret.id secret)) ;;;
  ret secret.

Definition deleteComponent (id : Z) : M (t * Store) Component.t :=
  o <~ this ;;
  deployment <~ lift (findByApplicationAndId (application o) id) ;;
  lift (delete_by_id Component.t (Component.id deployment)) ;;;
  ret deployment.

Definition delete : M (t * Store) Application.t :=
  o <~ this ;;
  lift (delete_by_id Application.t (Application.id (application o))) ;;;
  ret (application o).

End ApplicationMutations.

Module ApplicationMutationsResolver.

(** The mutation gate.  [user] is the identity of the request's context,
    which the [Authorized] decorator requires to be present. *)
Definition application (user : User.t) (id : Z) : M Store ApplicationMutations.t :=
  application <~ orFail (findOne (A := Application.t) id) ;;
  (* Ensure the current user has permission to this application. *)
  userHasPermission application user WRITE ;;;
  ret (ApplicationMutations.mk application).

(** A field of the mutation object resolved behind the gate, as one request
    [application(id) { field(...) }] does. *)
Definition through {A} (user : User.t) (id : Z)
    (field : M (ApplicationMutations.t * Store) A) : M Store A :=
  o <~ application user id ;;
  r <~ call o field ;;
  ret r.1.

End ApplicationMutationsResolver.

(** ** Vocabulary of the statements *)

(** A session is pending for a phase when it carries an identity id and its
    tag is that phase. *)
Definition session_in_phase (s : Session.t) (t : AuthType) : Prop :=
  Js.truthy_num (Session.userID s) = true /\ Session.type s = Some t.

(** The errors the source throws, by their messages. *)
Definition no_totp_session : Error := JsError "No TOTP session currently exists.".
Definition no_user_in_session : Error := JsError "No user was found in the current session.".
Definition totp_token_invalid : Error := JsError "The TOTP token provided was not valid.".

(** The next write succeeds. *)
Definition next_write_ok (st : Store) : Prop := hd false (faults st) = false.

(** The cookies that [signIn] and [removeUserCookie] set. *)
Definition display_cookie (u : User.t) : Cookies.cookie :=
  Cookies.mkCookie "userID" (Js.String (User.id u)) (Cookies.mkOptions false false).
Definition cleared_cookie : Cookies.cookie :=
  Cookies.mkCookie "userID" "0" (Cookies.mkOptions false false).

(** A cookie as the interface description wants the display cookie. *)
Definition signed_and_script_readable (c : Cookies.cookie) : Prop :=
  Cookies.signed (Cookies.copts c) = true /\ Cookies.httpOnly (Cookies.copts c) = false.

Definition insert_row {A} (e : A) (t : Table A) : Table A :=
  mkTable (<[next_id t := e]> (rows t)) (next_id t + 1).

(** The three rows a signup attempt writes into a store [st]. *)
Definition signUp_organization (input : SignUpInput) (st : Store) : Organization.t :=
  Organization.mk (Some (next_id (organizations st))) "Personal" true (in_username input).

Definition signUp_user `{Crypto} (input : SignUpInput) (salt : string) (st : Store) : User.t :=
  User.mk NONE (Some (next_id (users st))) (in_githubID input) (in_name input)
          (in_username input) (in_email input)
          (if Js.truthy_str (in_password input)
           then Some (bcrypt_hash (default "" (in_password input)) SALT_ROUNDS salt)
           else None)
          None (Some (next_id (organizations st))).

Definition signUp_membership (st : Store) : OrganizationMembership.t :=
  OrganizationMembership.mk (Some (next_id (memberships st))) (Some (next_id (users st)))
                            (Some (next_id (organizations st))) ADMIN.

Definition add_organization (o : Organization.t) (st : Store) : Store :=
  set_organizations (insert_row o (organizations st)) st.
Definition add_user (u : User.t) (st : Store) : Store :=
  set_users (insert_row u (users st)) st.
Definition add_membership (m : OrganizationMembership.t) (st : Store) : Store :=
  set_memberships (insert_row m (memberships st)) st.

(** The rows of the three tables that signup writes. *)
Definition signUp_tables (st : Store)
    : gmap Z Organization.t * gmap Z User.t * gmap Z OrganizationMembership.t :=
  (rows (organizations st), rows (users st), rows (memberships st)).

(** The Secret of key [id] exists and belongs to the ContainerGroup [cg]. *)
Definition secret_in_group (st : Store) (id cg : Z) : Prop :=
  exists row, rows (secrets st) !! id = Some row /\ Secret.containerGroup row = Some cg.

(** A field after a partial update that skips a missing key and null. *)
Definition merge_non_null (p : Js.prop string) (old : option string) : option string :=
  match p with
  | Js.Given v => Some v
  | _ => old
  end.

(** A field after an update that writes every key that is present. *)
Definition merge_present (p : Js.prop string) (old : option string) : option string :=
  if Js.has_key p then Js.read p else old.

(** The level a user holds on an organization, by the Membership of the pair. *)
Definition membership_level (st : Store) (user organization : option Z)
    : option OrganizationPermission :=
  OrganizationMembership.permission <$>
    head (filter (fun m => OrganizationMembership.user m = user
                           /\ OrganizationMembership.organization m = organization)
                 (map_to_list (rows (memberships st))).*2).

(** ** Statements of the specification that the code does not meet *)

(** Second-factor completion re-issues the session with phase full. *)
Definition totp_completion_reissues_session : Prop :=
  forall (C : Crypto) (token : string) (w w' : World) (u : User.t),
    fromTOTPSession token w = (Ok u, w') -> Session.type (session w') = Some FULL.

(** A failed signup leaves none of its rows behind. *)
Definition signUp_atomic : Prop :=
  forall (C : Crypto) (input : SignUpInput) (salt : string) (w : World) (e : Error),
    (signUp input salt w).1 = Throw e ->
    signUp_tables (store (signUp input salt w).2) = signUp_tables (store w).

(** A full sign-in sets a signed display cookie. *)
Definition signIn_sets_signed_cookie : Prop :=
  forall (u : User.t) (w : World) (c : Cookies.cookie),
    head (cookies (signIn FULL (u, w)).2.2) = Some c -> signed_and_script_readable c.

(** ** A sample deployment

    Two organizations with one owner each.  alice-org holds the application
    web, its component api, one container group and one secret; bob-org holds
    the application blog with its own component and container group. *)

(** An instance of the libraries for evaluating examples: the hash of a
    password is the password, and a token verifies when it equals the secret. *)
Definition plain_crypto : Crypto := {|
  bcrypt_hash p _ _ := p;
  bcrypt_compare p h := String.eqb p h;
  totp_verify secret token := String.eqb secret token;
|}.

Definition table_of {A} (l : list (Z * A)) : Table A :=
  mkTable (list_to_map l) (1 + Z.of_nat (length l)).

Definition alice : User.t :=
  User.mk NONE (Some 1) None "Alice" "alice" "alice@example.com"
          (Some "wonderland") (Some "JBSWY3DPEHPK3PXP") (Some 1).
Definition bob : User.t :=
  User.mk NONE (Some 2) None "Bob" "bob" "bob@example.com" (Some "builder") None (Some 2).

Definition web : Application.t :=
  Application.mk (Some 1) (Some "web") (Some "storefront") (Some 1).
Definition blog : Application.t :=
  Application.mk (Some 2) (Some "blog") (Some "notes") (Some 2).

Definition api : Component.t :=
  Component.mk (Some 1) (Some 1) (Some "api") (Some "repo/api:1") (Some "RECREATE").
Definition posts : Component.t :=
  Component.mk (Some 2) (Some 2) (Some "posts") (Some "repo/posts:3") (Some "RECREATE").

Definition db_url : Secret.t := Secret.mk (Some 1) "DB_URL" "postgres://db" (Some 1).

Definition sample_store : Store :=
  mkStore
    (table_of [(1, Organization.mk (Some 1) "Personal" true "alice");
               (2, Organization.mk (Some 2) "Personal" true "bob")])
    (table_of [(1, alice); (2, bob)])
    (table_of [(1, OrganizationMembership.mk (Some 1) (Some 1) (Some 1) ADMIN);
               (2, OrganizationMembership.mk (Some 2) (Some 2) (Some 2) ADMIN)])
    (table_of [(1, web); (2, blog)])
    (table_of [(1, api); (2, posts)])
    (table_of [(1, ContainerGroup.mk (Some 1) (Some 1) (Some 1));
               (2, ContainerGroup.mk (Some 2) (Some 2) (Some 2))])
    (table_of [(1, db_url)])
    [].

Definition full_world : World := mkWorld sample_store (Session.mk (Some 1) (Some FULL)) [].
Definition pending_world : World := mkWorld sample_store (Session.mk (Some 1) (Some TOTP)) [].
Definition fresh_world : World := mkWorld empty_store (Session.mk None None) [].

Definition carol_signup : SignUpInput :=
  mkSignUpInput "carol" "Carol" "carol@example.com" (Some "s3cret") None.

(** A store that accepts two writes and rejects the third. *)
Definition failing_membership_world : World :=
  set_store (set_faults [false; false; true] empty_store) fresh_world.

(** ** More of entity/User.ts *)

(** [get isPasswordless()]: the truthiness of [this.githubID && !this.passwordHash]. *)
Definition isPasswordless (u : User.t) : bool :=
  Js.truthy_str (User.githubID u) && negb (Js.truthy_str (User.passwordHash u)).

(** The APIKey entity, by the fields that [fromAPIKey] and [createAPIKey]
    read and write; [user] is the key of the owner's row. *)
Module APIKey.
Record t : Type := mk {
  id : option Z;
  key : string;
  description : string;
  user : option Z;
}.
End APIKey.

(** The store together with the table of API keys. *)
Record KeyedStore : Type := mkKeyedStore {
  base : Store;
  apiKeys : Table APIKey.t;
}.

(** [APIKey.findOne({ where: { key }, relations: ['user'] })]: the first row
    of that key in the store's scan order, with the row of its owner. *)
Definition findKeyWithUser (apiKey : string) : M KeyedStore (option (APIKey.t * option User.t)) :=
  ks <~ get ;;
  let found :=
    head (filter (fun k => APIKey.key k = apiKey) (map_to_list (rows (apiKeys ks))).*2) in
  ret ((fun k => (k, i ← APIKey.user k; ent_hydrate <$> rows (users (base ks)) !! i))
         <$> found).

Definition fromAPIKey (apiKey : string) : M KeyedStore (option User.t) :=
  key <~ findKeyWithUser apiKey ;;
  (* key?.user, with its grant type set where there is one *)
  ret (r ← key; User.set_grantType API_KEY <$> r.2).

(** The first [n] writes to come are accepted. *)
Definition accepts_writes (n : nat) (st : Store) : Prop :=
  forall i, (i < n)%nat -> nth i (faults st) false = false.

(** The sample store with three API keys, the last of them owned by no stored
    identity. *)
Definition sample_keys : KeyedStore :=
  mkKeyedStore sample_store
    (table_of [(1, APIKey.mk (Some 1) "key-of-alice" "ci" (Some 1));
               (2, APIKey.mk (Some 2) "key-of-bob" "laptop" (Some 2));
               (3, APIKey.mk (Some 3) "key-of-nobody" "stale" (Some 9))]).

Definition anonymous_world : World := mkWorld sample_store (Session.mk None None) [].

(** The sample store on a day when it rejects the next write. *)
Definition broken_world : World :=
  set_store (set_faults [true] sample_store) full_world.

Definition dave_signup : SignUpInput :=
  mkSignUpInput "dave" "Dave" "dave@example.com" None (Some "4711").

(** ** A request that presents its session *)

(** Modelled from the spec: the auth checker and the construction of the
    request context are not among the sources.  Every mutating call requires
    a resolved grant, and a call lacking one fails with unauthenticated
    before any domain logic runs; for a request that presents the session,
    the grant is the identity that [fromSession] resolves for the full phase,
    and the call then passes the mutation gate with it. *)
Definition mutate_with_session {A} (id : Z)
    (field : M (ApplicationMutations.t * Store) A) : M World A :=
  user <~ fromSession FULL ;;
  match user with
  | Some u => in_store (ApplicationMutationsResolver.through u id field)
  | None => throw Unauthenticated
  end.

(** ** What is known of bcryptjs *)

(** bcryptjs works on the first 72 bytes of a password and ignores the rest. *)
Definition first_72_bytes (s : string) : string := String.substring 0 72 s.

(** A hashing scheme that behaves as bcryptjs does: [compare] accepts the
    password that a hash was made from, and reads no more than the first 72
    bytes of what it is given. *)
Definition bcryptjs_contract (C : Crypto) : Prop :=
  (forall p salt, bcrypt_compare p (bcrypt_hash p SALT_ROUNDS salt) = true)
  /\ (forall q h, bcrypt_compare q h = bcrypt_compare (first_72_bytes q) h).

(** After [setPassword], [checkPassword] answers false for every other
    password. *)
Definition rejects_every_wrong_password (C : Crypto) : Prop :=
  forall (u : User.t) (w : World) (password salt wrong : string),
    wrong <> password ->
    ((setPassword password salt ;;; checkPassword wrong) (u, w)).1 = Ok false.

(** An instance of the libraries that cuts passwords at 72 bytes: the hash is
    the password so cut, and an attempt verifies when its cut equals the
    hash. *)
Definition truncating_crypto : Crypto := {|
  bcrypt_hash p _ _ := first_72_bytes p;
  bcrypt_compare q h := String.eqb (first_72_bytes q) h;
  totp_verify secret token := String.eqb secret token;
|}.

(** A password of 72 bytes, and one that continues it. *)
Definition long_password : string := String.string_of_list_ascii (replicate 72 (Ascii.ascii_of_nat 97)).
Definition longer_password : string := long_password ++ "b".

(** * Properties

    ** Grant resolution from the session *)

Section UserFacts.
Context `{Crypto}.

Lemma truthy_num_Some n : Js.truthy_num n = true -> exists k, n = Some k /\ k <> 0.
Proof.
  destruct n as [k|]; simpl; [|discriminate].
  intros Hk. exists k. split; [done|]. intros ->. discriminate.
Qed.

Lemma truthy_str_Some s : Js.truthy_str s = true -> exists x, s = Some x /\ x <> "".
Proof.
  destruct s as [[|a x]|]; simpl; try discriminate.
  intros _. eexists. split; [done|]. discriminate.
Qed.

Lemma fromSession_unfold allowed w :
  fromSession allowed w =
  (if Js.truthy_num (Session.userID (session w))
      && bool_decide (Session.type (session w) = Some allowed)
   then Ok (User.set_grantType SESSION <$>
              (User.set_grantType NONE <$>
                 rows (users (store w)) !! default 0 (Session.userID (session w))))
   else Ok None, w).
Proof.
  unfold fromSession, bind, gets. simpl.
  destruct (_ && _); [|done].
  unfold in_store, zoom, findOne, bind, gets, ret. simpl.
  destruct w as [st se co]. done.
Qed.

(** C5: resolving an identity from the session never changes the world; it
    yields an identity only when the session carries an identity id and its
    phase tag equals the demanded phase, and that identity has grant kind
    session; it does yield the stored identity when both hold; a session in
    the second-factor phase resolves to no identity when the full phase is
    demanded, so that a mutation requested with such a session fails as
    unauthenticated before the gate, whatever the application and the field,
    and leaves the world as it was; a full session of a stored identity does
    reach the gate, with that identity. *)
Theorem fromSession_phase (allowed : AuthType) (w : World) :
  (fromSession allowed w).2 = w
  /\ (forall u, (fromSession allowed w).1 = Ok (Some u) ->
        session_in_phase (session w) allowed /\ User.grantType u = SESSION)
  /\ (forall k row, Session.userID (session w) = Some k -> k <> 0 ->
        Session.type (session w) = Some allowed ->
        rows (users (store w)) !! k = Some row ->
        (fromSession allowed w).1 = Ok (Some (User.set_grantType SESSION row)))
  /\ (Session.type (session w) = Some TOTP -> (fromSession FULL w).1 = Ok None)
  /\ (Session.type (session w) = Some TOTP ->
        forall (A : Type) (id : Z) (field : M (ApplicationMutations.t * Store) A),
          mutate_with_session id field w = (Throw Unauthenticated, w))
  /\ (forall k row, Session.userID (session w) = Some k -> k <> 0 ->
        Session.type (session w) = Some FULL ->
        rows (users (store w)) !! k = Some row ->
        forall (A : Type) (id : Z) (field : M (ApplicationMutations.t * Store) A),
          mutate_with_session id field w
          = in_store (ApplicationMutationsResolver.through
                        (User.set_grantType SESSION row) id field) w).
Proof.
  split; [|split; [|split; [|split; [|split]]]].
  - by rewrite fromSession_unfold.
  - intros u. rewrite fromSession_unfold. simpl. intros Hu.
    destruct (_ && _) eqn:E; [|discriminate].
    apply andb_prop in E as [E1 E2]. apply bool_decide_eq_true in E2.
    split; [done|].
    destruct (rows _ !! _); simpl in *; [|discriminate].
    by simplify_eq.
  - intros k row Hk Hk0 Ht Hrow. rewrite fromSession_unfold. simpl. rewrite Hk, Ht. simpl.
    rewrite bool_decide_eq_true_2 by done.
    destruct (k =? 0) eqn:E; [apply Z.eqb_eq in E; done|]. simpl.
    rewrite Hrow. done.
  - intros Ht. rewrite fromSession_unfold. simpl. rewrite Ht.
    rewrite bool_decide_eq_false_2 by discriminate.
    by rewrite andb_false_r.
  - intros Ht A id field. unfold mutate_with_session, bind.
    rewrite fromSession_unfold, Ht.
    rewrite bool_decide_eq_false_2 by discriminate.
    by rewrite andb_false_r.
  - intros k row Hk Hk0 Ht Hrow A id field. unfold mutate_with_session, bind.
    rewrite fromSession_unfold, Hk, Ht.
    rewrite bool_decide_eq_true_2 by done. simpl.
    destruct (k =? 0) eqn:E; [apply Z.eqb_eq in E; done|]. simpl.
    by rewrite Hrow.
Qed.

End UserFacts.

Section TOTPFacts.
Context `{Crypto}.

Lemma fromTOTPSession_unfold token w :
  fromTOTPSession token w =
  (if negb (Js.truthy_num (Session.userID (session w)))
      || negb (bool_decide (Session.type (session w) = Some TOTP))
   then Throw no_totp_session
   else
     match rows (users (store w)) !! default 0 (Session.userID (session w)) with
     | Some row =>
         if negb (Js.truthy_str (User.totpSecret row))
         then Throw no_user_in_session
         else if negb (totp_verify (default "" (User.totpSecret row)) token)
              then Throw totp_token_invalid
              else Ok (User.set_grantType NONE row)
     | None => Throw no_user_in_session
     end, w).
Proof.
  unfold fromTOTPSession, bind, gets, throw. simpl.
  destruct (_ || _); [done|].
  unfold in_store, zoom, findOne, bind, gets, ret. simpl.
  destruct w as [st se co]; simpl.
  destruct (rows _ !! _) as [row|]; simpl; [|done].
  destruct (negb (Js.truthy_str _)); [done|].
  destruct (negb (totp_verify _ _)); done.
Qed.

Lemma session_in_phase_guard s t :
  session_in_phase s t ->
  negb (Js.truthy_num (Session.userID s)) || negb (bool_decide (Session.type s = Some t)) = false.
Proof.
  intros [-> Ht]. by rewrite bool_decide_eq_true_2.
Qed.

Lemma not_session_in_phase_guard s t :
  ~ session_in_phase s t ->
  negb (Js.truthy_num (Session.userID s)) || negb (bool_decide (Session.type s = Some t)) = true.
Proof.
  intros Hn. unfold session_in_phase in Hn.
  destruct (Js.truthy_num _); [|done]. simpl.
  rewrite bool_decide_eq_false_2; [done|]. tauto.
Qed.

(** C3, as amended: second-factor completion never changes the world (store,
    session, cookies), whatever its outcome.  It throws when the session is
    not pending in the second-factor phase, when no identity has the
    session's id, and when that identity has no enrolled secret; it throws
    when the token does not verify; and when the token verifies it returns
    the stored identity, the session staying in the second-factor phase: the
    re-issue with phase full is left to the caller's [signIn]. *)
Theorem fromTOTPSession_returns_identity_without_reissue (token : string) (w : World) :
  (fromTOTPSession token w).2 = w
  /\ (~ session_in_phase (session w) TOTP ->
        (fromTOTPSession token w).1 = Throw no_totp_session)
  /\ (forall k, session_in_phase (session w) TOTP ->
        Session.userID (session w) = Some k ->
        rows (users (store w)) !! k = None ->
        (fromTOTPSession token w).1 = Throw no_user_in_session)
  /\ (forall k row, session_in_phase (session w) TOTP ->
        Session.userID (session w) = Some k ->
        rows (users (store w)) !! k = Some row ->
        hasTOTP row = false ->
        (fromTOTPSession token w).1 = Throw no_user_in_session)
  /\ (forall k row secret, session_in_phase (session w) TOTP ->
        Session.userID (session w) = Some k ->
        rows (users (store w)) !! k = Some row ->
        hasTOTP row = true -> User.totpSecret row = Some secret ->
        totp_verify secret token = false ->
        (fromTOTPSession token w).1 = Throw totp_token_invalid)
  /\ (forall k row secret, session_in_phase (session w) TOTP ->
        Session.userID (session w) = Some k ->
        rows (users (store w)) !! k = Some row ->
        hasTOTP row = true -> User.totpSecret row = Some secret ->
        totp_verify secret token = true ->
        (fromTOTPSession token w).1 = Ok (User.set_grantType NONE row)).
Proof.
  rewrite !fromTOTPSession_unfold. simpl.
  split; [done|]. split.
  { intros Hn. by rewrite not_session_in_phase_guard. }
  unfold hasTOTP.
  repeat split; intros; rewrite session_in_phase_guard by done;
    repeat match goal with
           | E : Session.userID _ = Some _ |- _ => rewrite E; simpl
           | E : rows _ !! _ = _ |- _ => rewrite E; simpl
           | E : Js.truthy_str _ = _ |- _ => rewrite E; simpl
           | E : User.totpSecret _ = _ |- _ => rewrite E; simpl
           | E : totp_verify _ _ = _ |- _ => rewrite E; simpl
           end; done.
Qed.

End TOTPFacts.

Section DisableTOTPFacts.
Context `{Crypto}.

Lemma write_gate_ok st :
  next_write_ok st -> write_gate st = (Ok tt, set_faults (tl (faults st)) st).
Proof.
  unfold next_write_ok, write_gate. destruct st as [a b c d e f g fs]; simpl.
  destruct fs as [|[] fs]; simpl; try discriminate; done.
Qed.


End DisableTOTPFacts.

Section SignInFacts.

Lemma signIn_full (u : User.t) (w : World) :
  signIn FULL (u, w) =
  (Ok tt, (u, mkWorld (store w) (Session.mk (User.id u) (Some FULL))
                      (display_cookie u :: cookies w))).
Proof. destruct w. reflexivity. Qed.

(** C9, as amended: a full sign-in puts the display cookie on the jar with the
    identity id as its value, not HTTP-only and not signed; the cookie that
    [removeUserCookie] sets carries the same options. *)
Theorem signIn_display_cookie_unsigned (u : User.t) (w : World) :
  (exists w', signIn FULL (u, w) = (Ok tt, (u, w'))
     /\ cookies w' = display_cookie u :: cookies w
     /\ Cookies.signed (Cookies.copts (display_cookie u)) = false
     /\ Cookies.httpOnly (Cookies.copts (display_cookie u)) = false
     /\ Cookies.cvalue (display_cookie u) = Js.String (User.id u))
  /\ (exists w', removeUserCookie w = (Ok tt, w')
     /\ cookies w' = cleared_cookie :: cookies w
     /\ Cookies.signed (Cookies.copts cleared_cookie) = false
     /\ Cookies.httpOnly (Cookies.copts cleared_cookie) = false).
Proof.
  split.
  - rewrite signIn_full. eexists. split; [reflexivity|]. done.
  - destruct w. eexists. split; [reflexivity|]. done.
Qed.

End SignInFacts.

Section PasswordFacts.
Context `{Crypto}.

Lemma setPassword_then_checkPassword (u : User.t) (w : World) (password salt attempt : string) :
  (setPassword password salt ;;; checkPassword attempt) (u, w) =
  (Ok (bcrypt_compare attempt (bcrypt_hash password SALT_ROUNDS salt)),
   (User.set_passwordHash (Some (bcrypt_hash password SALT_ROUNDS salt)) u, w)).
Proof. reflexivity. Qed.

Lemma first_72_bytes_idempotent (s : string) :
  first_72_bytes (first_72_bytes s) = first_72_bytes s.
Proof.
  unfold first_72_bytes. generalize 72%nat. intros n. revert s.
  induction n as [|n IH]; intros [|c s]; simpl; try done.
  by rewrite IH.
Qed.

(** Passwords that agree on their first 72 bytes fare alike against any hash. *)
Lemma compare_up_to_72_bytes (p q h : string) :
  bcryptjs_contract H -> first_72_bytes q = first_72_bytes p ->
  bcrypt_compare q h = bcrypt_compare p h.
Proof.
  intros [_ Hcut] Hpq. by rewrite (Hcut q), (Hcut p), Hpq.
Qed.

(** C8, as amended: for a hashing scheme that behaves as bcryptjs does,
    setting a password and then checking it answers true; checking any
    attempt answers what the scheme's own compare says of the attempt and the
    stored hash; and that is true again for every attempt that agrees with
    the password on its first 72 bytes, also a wrong one. *)
Theorem password_hash_roundtrip_up_to_72_bytes (u : User.t) (w : World)
    (password salt : string) :
  bcryptjs_contract H ->
  ((setPassword password salt ;;; checkPassword password) (u, w)).1 = Ok true
  /\ (forall attempt,
        ((setPassword password salt ;;; checkPassword attempt) (u, w)).1
        = Ok (bcrypt_compare attempt (bcrypt_hash password SALT_ROUNDS salt)))
  /\ (forall attempt, first_72_bytes attempt = first_72_bytes password ->
        ((setPassword password salt ;;; checkPassword attempt) (u, w)).1 = Ok true).
Proof.
  intros Hc. split; [|split].
  - rewrite setPassword_then_checkPassword. simpl. by rewrite (proj1 Hc).
  - intros attempt. by rewrite setPassword_then_checkPassword.
  - intros attempt Hcut. rewrite setPassword_then_checkPassword. simpl.
    rewrite (compare_up_to_72_bytes password attempt _ Hc Hcut).
    by rewrite (proj1 Hc).
Qed.

End PasswordFacts.

Section SignUpFacts.
Context `{Crypto}.

(** C4, as amended: signup writes the Organization, the Identity and the
    Membership one after the other, outside of any transaction.  When the
    first write fails nothing is written; when the second fails the
    Organization row stays; when the Membership write fails the Organization
    and the Identity rows stay; in each of these the session and the cookies
    are untouched.  When all three succeed the identity is signed in. *)
Theorem signUp_writes_in_sequence (input : SignUpInput) (salt : string) (w : World)
    (fs : list bool) :
  let st := store w in
  let o := signUp_organization input st in
  let u := signUp_user input salt st in
  let m := signUp_membership st in
  (faults st = true :: fs ->
     signUp input salt w = (Throw StoreFailure, set_store (set_faults fs st) w))
  /\ (faults st = false :: true :: fs ->
     signUp input salt w =
       (Throw StoreFailure, set_store (set_faults fs (add_organization o st)) w))
  /\ (faults st = false :: false :: true :: fs ->
     signUp input salt w =
       (Throw StoreFailure,
        set_store (set_faults fs (add_user u (add_organization o st))) w))
  /\ (faults st = false :: false :: false :: fs ->
     signUp input salt w =
       (Ok tt,
        mkWorld (set_faults fs (add_membership m (add_user u (add_organization o st))))
                (Session.mk (User.id u) (Some FULL))
                (display_cookie u :: cookies w))).
Proof.
  destruct w as [st se co]. destruct st as [a b c d e f g fl]. simpl.
  repeat split; intros ->;
    unfold signUp, in_store, zoom, bind, save, write_gate, call, setPassword, set_this,
           signIn, lift, this, gets, modify, ret, zoom,
           add_membership, add_user, add_organization, insert_row,
           signUp_membership, signUp_user, signUp_organization, display_cookie; simpl;
    destruct (Js.truthy_str (in_password input)); reflexivity.
Qed.

End SignUpFacts.

Section ResolverFacts.

Import ApplicationMutations.

Lemma scoped_secret_lookup_fails (st : Store) (id cg : Z) :
  ~ secret_in_group st id cg ->
  orFail (findOneWhere id (fun s : Secret.t =>
            bool_decide (Secret.containerGroup s = Some cg))) st
  = (Throw EntityNotFound, st).
Proof.
  intros Hn. unfold orFail, findOneWhere, bind, gets, ret. simpl.
  destruct (rows (secrets st) !! id) as [row|] eqn:E; simpl; [|done].
  case_bool_decide as Hc; simpl; [|done].
  exfalso. apply Hn. by exists row.
Qed.

Lemma scoped_secret_lookup_finds (st : Store) (id cg : Z) (row : Secret.t) :
  rows (secrets st) !! id = Some row -> Secret.containerGroup row = Some cg ->
  orFail (findOneWhere id (fun s : Secret.t =>
            bool_decide (Secret.containerGroup s = Some cg))) st
  = (Ok row, st).
Proof.
  intros E Hc. unfold orFail, findOneWhere, bind, gets, ret. simpl.
  rewrite E. simpl. by rewrite bool_decide_eq_true_2.
Qed.

(** The gate reads the store and never writes it. *)
Lemma gate_reads_only (user : User.t) (id : Z) (st : Store) :
  (ApplicationMutationsResolver.application user id st).2 = st.
Proof.
  unfold ApplicationMutationsResolver.application, orFail, findOne, userHasPermission,
    findOneBy, bind, gets, ret, throw. simpl.
  destruct (rows (applications st) !! id) as [a|]; simpl; [|done].
  destruct (head _) as [m|]; simpl; [|done].
  match goal with |- context [if ?b then _ else _] => destruct b end; done.
Qed.

Lemma through_failing_field {A} (user : User.t) (id : Z)
    (field : M (ApplicationMutations.t * Store) A) (st : Store) (e : Error) :
  (forall o, field (o, st) = (Throw e, (o, st))) ->
  exists e', ApplicationMutationsResolver.through user id field st = (Throw e', st).
Proof.
  intros Hf. unfold ApplicationMutationsResolver.through, bind.
  pose proof (gate_reads_only user id st) as Hg.
  destruct (ApplicationMutationsResolver.application user id st) as [[o|e0] st0].
  - simpl in Hg. subst st0. unfold call. rewrite Hf. by exists e.
  - simpl in Hg. subst st0. by exists e0.
Qed.

(** C6: when no Secret of the given id belongs to the given ContainerGroup,
    [editSecret] and [deleteSecret] throw not-found and leave the store as it
    was, and so does the whole request through the mutation gate, whoever
    the caller and whatever application it passed the gate with. *)
Theorem secret_lookup_scoped_by_group (o : ApplicationMutations.t) (st : Store)
    (containerGroupID id : Z) (key value : string) :
  ~ secret_in_group st id containerGroupID ->
  editSecret containerGroupID id key value (o, st) = (Throw EntityNotFound, (o, st))
  /\ deleteSecret containerGroupID id (o, st) = (Throw EntityNotFound, (o, st))
  /\ (forall user app, exists e,
        ApplicationMutationsResolver.through user app
          (editSecret containerGroupID id key value) st = (Throw e, st))
  /\ (forall user app, exists e,
        ApplicationMutationsResolver.through user app
          (deleteSecret containerGroupID id) st = (Throw e, st)).
Proof.
  intros Hn.
  assert (He : forall o', editSecret containerGroupID id key value (o', st)
                          = (Throw EntityNotFound, (o', st))).
  { intros o'. unfold editSecret, bind, lift, zoom. simpl.
    by rewrite scoped_secret_lookup_fails. }
  assert (Hd : forall o', deleteSecret containerGroupID id (o', st)
                          = (Throw EntityNotFound, (o', st))).
  { intros o'. unfold deleteSecret, bind, lift, zoom. simpl.
    by rewrite scoped_secret_lookup_fails. }
  repeat split; [apply He | apply Hd | |]; intros user app;
    eapply through_failing_field; eauto.
Qed.

(** Where the Secret does belong to the named group, the edit reaches it. *)
Lemma editSecret_in_group (o : ApplicationMutations.t) (st : Store)
    (containerGroupID id : Z) (key value : string) (row : Secret.t) :
  rows (secrets st) !! id = Some row ->
  Secret.containerGroup row = Some containerGroupID ->
  Secret.id row = Some id ->
  next_write_ok st ->
  exists st',
    editSecret containerGroupID id key value (o, st)
    = (Ok (Secret.mk (Some id) key value (Some containerGroupID)), (o, st'))
    /\ rows (secrets st') !! id = Some (Secret.mk (Some id) key value (Some containerGroupID)).
Proof.
  intros E Hc Hi Hok. unfold editSecret, bind, lift, zoom. simpl.
  rewrite (scoped_secret_lookup_finds _ _ _ _ E Hc). simpl.
  unfold save, bind. rewrite (write_gate_ok _ Hok). simpl.
  destruct row as [i k v c]; simpl in *. subst.
  eexists. split; [reflexivity|]. simpl. by rewrite lookup_insert_eq.
Qed.

(** [addSecret] takes any container group of the store, whatever the
    application behind the gate. *)
Lemma addSecret_any_group (o : ApplicationMutations.t) (st : Store)
    (containerGroupID : Z) (key value : string) (g : ContainerGroup.t) :
  rows (containerGroups st) !! containerGroupID = Some g ->
  next_write_ok st ->
  let s := Secret.mk (Some (next_id (secrets st))) key value (ContainerGroup.id g) in
  exists st',
    addSecret containerGroupID key value (o, st) = (Ok s, (o, st'))
    /\ rows (secrets st') !! next_id (secrets st) = Some s.
Proof.
  intros E Hok. unfold addSecret, orFail, findOne, bind, gets, lift, zoom, ret. simpl.
  rewrite E. simpl. unfold save, bind. rewrite (write_gate_ok _ Hok). simpl.
  eexists. split; [reflexivity|]. simpl. by rewrite lookup_insert_eq.
Qed.

(** [delete] touches the table of Applications and no other. *)
Lemma delete_leaves_descendants (o : ApplicationMutations.t) (st : Store) :
  let st' := (ApplicationMutations.delete (o, st)).2.2 in
  components st' = components st
  /\ containerGroups st' = containerGroups st
  /\ secrets st' = secrets st.
Proof.
  unfold ApplicationMutations.delete, delete_by_id, bind, this, gets, lift, zoom,
    write_gate. simpl.
  destruct st as [a b c d e f g fl]; simpl.
  destruct fl as [|[] fl]; simpl; destruct (Application.id (application o)); done.
Qed.

(** Partial update of an Application: a field that is omitted or null keeps
    its value, a given one is assigned, and the row is saved so. *)
Lemma update_partial (input : ApplicationInput) (o : ApplicationMutations.t) (st : Store) (k : Z) :
  Application.id (application o) = Some k ->
  next_write_ok st ->
  let a := application o in
  let a' := Application.mk (Some k) (merge_non_null (ai_name input) (Application.name a))
              (merge_non_null (ai_description input) (Application.description a))
              (Application.organization a) in
  exists st',
    update input (o, st) = (Ok a', (mk a', st'))
    /\ rows (applications st') !! k = Some a'.
Proof.
  intros Hk Hok. destruct o as [[i n d og]]. simpl in *. subst i.
  unfold update, bind, set_this, modify, this, gets, lift, zoom, save, bind, ret. simpl.
  destruct input as [[| |vn] [| |vd]]; simpl;
    rewrite (write_gate_ok _ Hok); simpl;
    (eexists; split; [reflexivity|]; simpl; by rewrite lookup_insert_eq).
Qed.

(** [updateComponent] writes every key that is present in the input, also
    one that holds null, and keeps the fields whose key is missing. *)
Lemma updateComponent_assigns_present_keys (id : Z) (input : ComponentInput)
    (o : ApplicationMutations.t) (st : Store) (c : Component.t) :
  rows (components st) !! id = Some c ->
  Component.id c = Some id ->
  Component.application c = Application.id (application o) ->
  next_write_ok st ->
  let c' := Component.mk (Some id) (Component.application c)
              (merge_present (ci_name input) (Component.name c))
              (merge_present (ci_image input) (Component.image c))
              (merge_present (ci_deploymentStrategy input) (Component.deploymentStrategy c)) in
  exists st',
    updateComponent id input (o, st) = (Ok c', (o, st'))
    /\ rows (components st') !! id = Some c'.
Proof.
  intros E Hi Ha Hok. destruct c as [i a n im ds]. simpl in *. subst i a.
  unfold updateComponent, findByApplicationAndId, orFail, findOneWhere.
  unfold bind, this, gets, lift, zoom, ret. simpl. rewrite E. simpl.
  rewrite bool_decide_eq_true_2 by done. simpl.
  unfold save, bind. rewrite (write_gate_ok _ Hok). simpl.
  destruct o as [app].
  destruct input as [[| |vn] [| |vi] [| |vd]]; simpl;
    (eexists; split; [reflexivity|]; simpl; by rewrite lookup_insert_eq).
Qed.

End ResolverFacts.

(** * The sample deployment under the code *)

Section Sample.
#[local] Existing Instance plain_crypto.
Import ApplicationMutations.

(** C1: bob holds no Membership on alice-org, which owns container group 1,
    and is turned away with not-found at the gate of alice's application;
    yet through the gate of his own application the same [addSecret] call
    succeeds and stores a Secret under alice's container group. *)
Theorem addSecret_reaches_foreign_container_group :
  membership_level sample_store (User.id bob) (Some 1) = None
  /\ ContainerGroup.organization <$> rows (containerGroups sample_store) !! 1 = Some (Some 1)
  /\ ApplicationMutationsResolver.through bob 1 (addSecret 1 "API_TOKEN" "planted") sample_store
     = (Throw EntityNotFound, sample_store)
  /\ (exists st',
        ApplicationMutationsResolver.through bob 2 (addSecret 1 "API_TOKEN" "planted")
          sample_store
        = (Ok (Secret.mk (Some 2) "API_TOKEN" "planted" (Some 1)), st')
        /\ rows (secrets st') !! 2 = Some (Secret.mk (Some 2) "API_TOKEN" "planted" (Some 1))).
Proof.
  split; [vm_compute; reflexivity|].
  split; [vm_compute; reflexivity|].
  split; [vm_compute; reflexivity|].
  eexists. split; vm_compute; reflexivity.
Qed.

(** C2: deleting the application web removes its own row and leaves the
    component, the container group and the secret beneath it in the store. *)
Theorem delete_leaves_orphans :
  exists st',
    ApplicationMutations.delete (mk web, sample_store) = (Ok web, (mk web, st'))
    /\ rows (applications st') !! 1 = None
    /\ rows (components st') !! 1 = Some api
    /\ rows (containerGroups st') !! 1 = Some (ContainerGroup.mk (Some 1) (Some 1) (Some 1))
    /\ rows (secrets st') !! 1 = Some db_url.
Proof.
  eexists. split; [vm_compute; reflexivity|].
  repeat split; vm_compute; reflexivity.
Qed.

(** C7: an [updateComponent] whose input holds [name: null] stores null as
    the component's name, where the partial update of an Application keeps
    the old value. *)
Theorem updateComponent_null_overwrites :
  let input := mkComponentInput Js.Null Js.Omitted Js.Omitted in
  Component.name api = Some "api"
  /\ (exists st',
        updateComponent 1 input (mk web, sample_store)
        = (Ok (Component.set_name None api), (mk web, st'))
        /\ Component.name <$> rows (components st') !! 1 = Some None)
  /\ (exists st',
        update (mkApplicationInput Js.Null Js.Omitted) (mk web, sample_store)
        = (Ok web, (mk web, st'))
        /\ Application.name <$> rows (applications st') !! 1 = Some (Some "web")).
Proof.
  split; [reflexivity|].
  split; eexists; (split; vm_compute; reflexivity).
Qed.

(** ** The statements the code does not meet, refuted on the sample *)

Lemma totp_completion_keeps_pending_phase : ~ totp_completion_reissues_session.
Proof.
  intros Hc.
  specialize (Hc plain_crypto "JBSWY3DPEHPK3PXP" pending_world pending_world alice).
  assert (Hrun : fromTOTPSession "JBSWY3DPEHPK3PXP" pending_world = (Ok alice, pending_world))
    by (vm_compute; reflexivity).
  specialize (Hc Hrun). discriminate Hc.
Qed.

Lemma signUp_leaves_rows_behind : ~ signUp_atomic.
Proof.
  intros Hc.
  specialize (Hc plain_crypto carol_signup "salt" failing_membership_world StoreFailure).
  assert (Hrun : (signUp carol_signup "salt" failing_membership_world).1 = Throw StoreFailure)
    by (vm_compute; reflexivity).
  specialize (Hc Hrun).
  assert (Hrow : rows (users (store (signUp carol_signup "salt" failing_membership_world).2)) !! 1
                 = rows (users (store failing_membership_world)) !! 1).
  { unfold signUp_tables in Hc. by simplify_eq. }
  vm_compute in Hrow. discriminate Hrow.
Qed.

Lemma signIn_cookie_is_unsigned : ~ signIn_sets_signed_cookie.
Proof.
  intros Hc.
  destruct (Hc alice fresh_world (display_cookie alice)) as [Hs _]; [reflexivity|].
  discriminate Hs.
Qed.

(** ** The theorems at work on the sample *)

Lemma fromSession_phase_witness :
  (fromSession FULL full_world).1 = Ok (Some (User.set_grantType SESSION alice))
  /\ (fromSession FULL pending_world).1 = Ok None
  /\ mutate_with_session 1 (addSecret 1 "DB_REPLICA" "postgres://replica") pending_world
     = (Throw Unauthenticated, pending_world)
  /\ mutate_with_session 1 (addSecret 1 "DB_REPLICA" "postgres://replica") full_world
     = in_store (ApplicationMutationsResolver.through (User.set_grantType SESSION alice) 1
                   (addSecret 1 "DB_REPLICA" "postgres://replica")) full_world.
Proof.
  split; [|split; [|split]].
  - apply (proj1 (proj2 (proj2 (fromSession_phase FULL full_world))) 1 alice);
      [reflexivity | lia | reflexivity | vm_compute; reflexivity].
  - apply (proj1 (proj2 (proj2 (proj2 (fromSession_phase FULL pending_world))))).
    reflexivity.
  - apply (proj1 (proj2 (proj2 (proj2 (proj2 (fromSession_phase FULL pending_world)))))).
    reflexivity.
  - apply (proj2 (proj2 (proj2 (proj2 (proj2 (fromSession_phase FULL full_world))))) 1 alice);
      [reflexivity | lia | reflexivity | vm_compute; reflexivity].
Defined.

Lemma fromTOTPSession_witness :
  (fromTOTPSession "JBSWY3DPEHPK3PXP" pending_world).1 = Ok alice
  /\ (fromTOTPSession "000000" pending_world).1 = Throw totp_token_invalid
  /\ (fromTOTPSession "JBSWY3DPEHPK3PXP" full_world).1 = Throw no_totp_session.
Proof.
  split; [|split].
  - apply (proj2 (proj2 (proj2 (proj2 (proj2
             (fromTOTPSession_returns_identity_without_reissue
                "JBSWY3DPEHPK3PXP" pending_world))))) 1 alice "JBSWY3DPEHPK3PXP");
      [split; reflexivity | reflexivity | vm_compute; reflexivity
      | reflexivity | reflexivity | reflexivity].
  - apply (proj1 (proj2 (proj2 (proj2 (proj2
             (fromTOTPSession_returns_identity_without_reissue
                "000000" pending_world))))) 1 alice "JBSWY3DPEHPK3PXP");
      [split; reflexivity | reflexivity | vm_compute; reflexivity
      | reflexivity | reflexivity | reflexivity].
  - apply (proj1 (proj2
             (fromTOTPSession_returns_identity_without_reissue
                "JBSWY3DPEHPK3PXP" full_world))).
    intros [_ Ht]. discriminate Ht.
Defined.


Lemma truncating_crypto_contract : bcryptjs_contract truncating_crypto.
Proof.
  split.
  - intros p salt. apply String.eqb_refl.
  - intros q h. simpl. by rewrite first_72_bytes_idempotent.
Qed.

Lemma longer_password_differs : longer_password <> long_password.
Proof. intros E. apply (f_equal String.length) in E. vm_compute in E. discriminate E. Qed.

Lemma longer_password_same_cut : first_72_bytes longer_password = first_72_bytes long_password.
Proof. vm_compute. reflexivity. Qed.

(** No scheme that behaves as bcryptjs does rejects every wrong password: the
    password of 72 bytes continued by one more byte verifies against the hash
    of the password of 72 bytes. *)
Lemma wrong_password_beyond_72_bytes_verifies :
  ~ exists C : Crypto, bcryptjs_contract C /\ rejects_every_wrong_password C.
Proof.
  intros [C [Hc Hr]].
  specialize (Hr bob fresh_world long_password "salt" longer_password
                 longer_password_differs).
  rewrite setPassword_then_checkPassword in Hr. simpl in Hr.
  rewrite (compare_up_to_72_bytes long_password longer_password _ Hc
             longer_password_same_cut) in Hr.
  rewrite (proj1 Hc) in Hr. discriminate Hr.
Qed.

Lemma password_hash_roundtrip_up_to_72_bytes_witness :
  ((setPassword (H := truncating_crypto) long_password "salt" ;;;
    checkPassword (H := truncating_crypto) long_password) (bob, fresh_world)).1 = Ok true
  /\ ((setPassword (H := truncating_crypto) long_password "salt" ;;;
       checkPassword (H := truncating_crypto) longer_password) (bob, fresh_world)).1 = Ok true.
Proof.
  split.
  - apply (proj1 (password_hash_roundtrip_up_to_72_bytes (H := truncating_crypto)
                    bob fresh_world long_password "salt" truncating_crypto_contract)).
  - apply (proj2 (proj2 (password_hash_roundtrip_up_to_72_bytes (H := truncating_crypto)
                    bob fresh_world long_password "salt" truncating_crypto_contract))).
    vm_compute. reflexivity.
Defined.

Lemma signUp_writes_in_sequence_witness :
  signUp carol_signup "salt" failing_membership_world
  = (Throw StoreFailure,
     set_store
       (set_faults []
          (add_user (signUp_user carol_signup "salt" empty_store)
             (add_organization (signUp_organization carol_signup empty_store)
                (store failing_membership_world))))
       failing_membership_world).
Proof.
  apply (proj1 (proj2 (proj2
           (signUp_writes_in_sequence carol_signup "salt" failing_membership_world [])))).
  reflexivity.
Defined.

Lemma secret_lookup_scoped_by_group_witness :
  editSecret 2 1 "DB_URL" "postgres://elsewhere" (mk blog, sample_store)
  = (Throw EntityNotFound, (mk blog, sample_store))
  /\ deleteSecret 2 1 (mk blog, sample_store) = (Throw EntityNotFound, (mk blog, sample_store)).
Proof.
  assert (Hn : ~ secret_in_group sample_store 1 2).
  { intros [row [Hrow Hg]]. vm_compute in Hrow. by simplify_eq. }
  split.
  - apply (proj1 (secret_lookup_scoped_by_group (mk blog) sample_store 2 1
                    "DB_URL" "postgres://elsewhere" Hn)).
  - apply (proj1 (proj2 (secret_lookup_scoped_by_group (mk blog) sample_store 2 1
                    "DB_URL" "postgres://elsewhere" Hn))).
Defined.

End Sample.

(** * Further properties

    ** The session across sign-in, second factor and sign-out *)

Section SessionFlow.
Context `{Crypto}.

Lemma signIn_run (type : AuthType) (u : User.t) (w : World) :
  signIn type (u, w) =
  (Ok tt, (u, mkWorld (store w) (Session.mk (User.id u) (Some type))
                      (if bool_decide (type = FULL)
                       then display_cookie u :: cookies w else cookies w))).
Proof. destruct w. unfold signIn. destruct type; reflexivity. Qed.

Lemma fromSession_resolves (allowed : AuthType) (w : World) (k : Z) (row : User.t) :
  Session.userID (session w) = Some k -> k <> 0 ->
  Session.type (session w) = Some allowed ->
  rows (users (store w)) !! k = Some row ->
  fromSession allowed w = (Ok (Some (User.set_grantType SESSION row)), w).
Proof.
  intros Hk Hk0 Ht Hrow. rewrite fromSession_unfold, Hk, Ht. simpl.
  rewrite bool_decide_eq_true_2 by done.
  destruct (k =? 0) eqn:E; [apply Z.eqb_eq in E; done|]. simpl.
  by rewrite Hrow.
Qed.

Lemma fromSession_other_phase (allowed : AuthType) (w : World) (t : option AuthType) :
  Session.type (session w) = t -> t <> Some allowed ->
  fromSession allowed w = (Ok None, w).
Proof.
  intros Ht Hne. rewrite fromSession_unfold, Ht.
  rewrite bool_decide_eq_false_2 by done. by rewrite andb_false_r.
Qed.

(** A sign-in for a phase makes the session resolve the stored identity for
    that phase and for no other; outside the full phase it sets no cookie. *)
Theorem signIn_then_fromSession (type : AuthType) (u row : User.t) (w : World) (k : Z) :
  User.id u = Some k -> k <> 0 ->
  rows (users (store w)) !! k = Some row ->
  let w' := (signIn type (u, w)).2.2 in
  (fromSession type w').1 = Ok (Some (User.set_grantType SESSION row))
  /\ (forall other, other <> type -> (fromSession other w').1 = Ok None)
  /\ (type <> FULL -> cookies w' = cookies w).
Proof.
  intros Hk Hk0 Hrow. rewrite signIn_run. simpl.
  split; [|split].
  - by rewrite (fromSession_resolves type _ k row).
  - intros other Hne.
    rewrite (fromSession_other_phase other _ (Some type)); [done|done|congruence].
  - intros Hne. by rewrite bool_decide_eq_false_2.
Qed.

(** An identity that was never saved, or whose id is 0, signs in to a session
    that resolves to nobody. *)
Theorem signIn_unsaved_identity_resolves_nobody (type allowed : AuthType) (u : User.t)
    (w : World) :
  Js.truthy_num (User.id u) = false ->
  fromSession allowed (signIn type (u, w)).2.2 = (Ok None, (signIn type (u, w)).2.2).
Proof.
  intros Hf. rewrite signIn_run. simpl. rewrite fromSession_unfold. simpl.
  by rewrite Hf.
Qed.

(** The second factor in full: with a pending session and a token that
    verifies, [fromTOTPSession], then [signIn] on the identity it returned,
    leave a full session that resolves this identity, and the display cookie
    on the jar. *)
Theorem second_factor_then_signIn (token secret : string) (w : World) (k : Z)
    (row : User.t) :
  Session.userID (session w) = Some k -> k <> 0 ->
  Session.type (session w) = Some TOTP ->
  rows (users (store w)) !! k = Some row ->
  User.id row = Some k ->
  User.totpSecret row = Some secret -> secret <> "" ->
  totp_verify secret token = true ->
  (u <~ fromTOTPSession token ;; _ <~ call u (signIn FULL) ;; fromSession FULL) w
  = (Ok (Some (User.set_grantType SESSION row)),
     mkWorld (store w) (Session.mk (Some k) (Some FULL)) (display_cookie row :: cookies w)).
Proof.
  intros Hk Hk0 Ht Hrow Hid Hs Hne Hv.
  unfold bind at 1. rewrite fromTOTPSession_unfold, Hk, Ht. simpl.
  destruct (k =? 0) eqn:E; [apply Z.eqb_eq in E; done|]. simpl.
  rewrite Hrow, Hs. simpl.
  destruct secret as [|c secret]; [done|]. simpl. rewrite Hv. simpl.
  unfold bind, call. rewrite signIn_run. simpl. rewrite Hid.
  rewrite (fromSession_resolves FULL _ k row); try done.
Qed.

(** No session serves both as a full session and as a pending second factor. *)
Theorem session_phases_exclusive (token : string) (w : World) :
  (forall u, (fromTOTPSession token w).1 = Ok u -> (fromSession FULL w).1 = Ok None)
  /\ (forall u, (fromSession FULL w).1 = Ok (Some u) ->
        (fromTOTPSession token w).1 = Throw no_totp_session).
Proof.
  rewrite fromTOTPSession_unfold, fromSession_unfold. simpl. split.
  - intros u Hu.
    destruct (bool_decide (Session.type (session w) = Some TOTP)) eqn:E.
    + apply bool_decide_eq_true in E. rewrite E.
      rewrite bool_decide_eq_false_2 by discriminate. by rewrite andb_false_r.
    + rewrite orb_true_r in Hu. discriminate.
  - intros u Hu.
    destruct (bool_decide (Session.type (session w) = Some FULL)) eqn:E.
    + apply bool_decide_eq_true in E. rewrite E.
      rewrite (bool_decide_eq_false_2 (Some FULL = Some TOTP)) by discriminate.
      by rewrite orb_true_r.
    + rewrite andb_false_r in Hu. discriminate.
Qed.

(** Signing out sets the display cookie to 0 and nothing more: the session
    and the store stay, and the session resolves as it did before. *)
Theorem signOut_keeps_session (allowed : AuthType) (u : User.t) (w : World) :
  exists w',
    signOut (u, w) = (Ok tt, (u, w'))
    /\ cookies w' = cleared_cookie :: cookies w
    /\ session w' = session w
    /\ store w' = store w
    /\ (fromSession allowed w').1 = (fromSession allowed w).1.
Proof.
  destruct w as [st se co]. eexists. split; [reflexivity|].
  repeat split. by rewrite !fromSession_unfold.
Qed.

End SessionFlow.

(** ** The second-factor secret and the password *)

Section CredentialFlow.
Context `{Crypto}.

Lemma disableTOTP_success (password h : string) (u : User.t) (w : World) (k : Z) :
  User.id u = Some k -> hasTOTP u = true -> User.passwordHash u = Some h ->
  bcrypt_compare password h = true -> next_write_ok (store w) ->
  disableTOTP password (u, w) =
  (Ok tt, (User.set_totpSecret None u,
           set_store (set_users (mkTable (<[k := User.set_totpSecret None u]>
                                            (rows (users (store w))))
                                         (next_id (users (store w))))
                                (set_faults (tl (faults (store w))) (store w))) w)).
Proof.
  intros Hk Ht Hp Hc Hok. unfold hasTOTP in Ht.
  unfold disableTOTP, this, bind, gets. simpl. rewrite Ht, Hp. simpl.
  unfold ret. rewrite Hc. simpl.
  unfold lift, in_store, zoom, save, bind. simpl.
  rewrite (write_gate_ok _ Hok).
  destruct w as [st se co]. destruct u as [g i gh n un em ph ts po]; simpl in *.
  subst i. reflexivity.
Qed.

(** Once the second factor is disabled, a session pending for it no longer
    completes, and disabling again does nothing, whatever the password. *)
Theorem disableTOTP_then_second_factor_fails (password h token : string) (u : User.t)
    (w : World) (k : Z) :
  User.id u = Some k -> k <> 0 -> hasTOTP u = true -> User.passwordHash u = Some h ->
  bcrypt_compare password h = true -> next_write_ok (store w) ->
  Session.userID (session w) = Some k -> Session.type (session w) = Some TOTP ->
  let s' := (disableTOTP password (u, w)).2 in
  hasTOTP s'.1 = false
  /\ (fromTOTPSession token s'.2).1 = Throw no_user_in_session
  /\ (forall other, disableTOTP other s' = (Ok tt, s')).
Proof.
  intros Hk Hk0 Ht Hp Hc Hok Hu Hty.
  rewrite (disableTOTP_success password h u w k) by done. simpl.
  split; [done|]. split.
  - rewrite fromTOTPSession_unfold. simpl. rewrite Hu, Hty. simpl.
    destruct (k =? 0) eqn:E; [apply Z.eqb_eq in E; done|]. simpl.
    by rewrite lookup_insert_eq.
  - intros other. reflexivity.
Qed.

(** When the store rejects the write of [disableTOTP], the call throws with
    the secret cleared on the object in memory and kept in the store. *)
Theorem disableTOTP_failed_write (password h : string) (u : User.t) (w : World)
    (fs : list bool) :
  hasTOTP u = true -> User.passwordHash u = Some h ->
  bcrypt_compare password h = true -> faults (store w) = true :: fs ->
  exists w',
    disableTOTP password (u, w) = (Throw StoreFailure, (User.set_totpSecret None u, w'))
    /\ users (store w') = users (store w)
    /\ session w' = session w /\ cookies w' = cookies w.
Proof.
  intros Ht Hp Hc Hf. unfold hasTOTP in Ht.
  unfold disableTOTP, this, bind, gets. simpl. rewrite Ht, Hp. simpl.
  unfold ret. rewrite Hc. simpl.
  unfold lift, in_store, zoom, save, bind, write_gate. simpl. rewrite Hf.
  destruct w as [st se co]. eexists. split; [reflexivity|]. done.
Qed.

(** Without a password hash [checkPassword] throws, whatever the attempt. *)
Lemma checkPassword_without_hash (attempt : string) (u : User.t) (w : World) :
  User.passwordHash u = None ->
  checkPassword attempt (u, w) = (Throw IllegalArguments, (u, w)).
Proof. intros Hp. unfold checkPassword, this, bind, gets. simpl. by rewrite Hp. Qed.

Lemma signUp_accepted (input : SignUpInput) (salt : string) (w : World) :
  accepts_writes 3 (store w) ->
  let st := store w in
  let u := signUp_user input salt st in
  signUp input salt w =
  (Ok tt,
   mkWorld (set_faults (drop 3 (faults st))
              (add_membership (signUp_membership st)
                 (add_user u (add_organization (signUp_organization input st) st))))
           (Session.mk (User.id u) (Some FULL))
           (display_cookie u :: cookies w)).
Proof.
  intros Ha. destruct w as [st se co]. destruct st as [a b c d e f g fl]. simpl in *.
  assert (H0 := Ha 0%nat). assert (H1 := Ha 1%nat). assert (H2 := Ha 2%nat).
  simpl in H0, H1, H2.
  destruct fl as [|x [|y [|z fl]]]; simpl in *;
    repeat match goal with
           | Hx : (_ < 3)%nat -> _ = false |- _ => specialize (Hx ltac:(lia)); try subst
           end;
    unfold signUp, in_store, zoom, bind, save, write_gate, call, setPassword, set_this,
           signIn, lift, this, gets, modify, ret, zoom,
           add_membership, add_user, add_organization, insert_row,
           signUp_membership, signUp_user, signUp_organization, display_cookie; simpl;
    destruct (Js.truthy_str (in_password input)); reflexivity.
Qed.

(** A signup that the store accepts leaves a full session that resolves the
    new identity, which is stored with its personal organization and is admin
    of it. *)
Theorem signUp_then_fromSession (input : SignUpInput) (salt : string) (w : World) :
  accepts_writes 3 (store w) ->
  next_id (users (store w)) <> 0 ->
  let st := store w in
  let u := signUp_user input salt st in
  let w' := (signUp input salt w).2 in
  (fromSession FULL w').1 = Ok (Some (User.set_grantType SESSION u))
  /\ rows (organizations (store w')) !! next_id (organizations st)
     = Some (signUp_organization input st)
  /\ User.personalOrganization u = Some (next_id (organizations st))
  /\ rows (memberships (store w')) !! next_id (memberships st)
     = Some (OrganizationMembership.mk (Some (next_id (memberships st))) (User.id u)
               (User.personalOrganization u) ADMIN).
Proof.
  intros Ha Hn. rewrite (signUp_accepted input salt w Ha). simpl.
  split; [|split; [|split]].
  - erewrite fromSession_resolves; [done|reflexivity|done|reflexivity|].
    simpl. by rewrite lookup_insert_eq.
  - by rewrite lookup_insert_eq.
  - done.
  - by rewrite lookup_insert_eq.
Qed.

(** A signup without password, or with the empty password, stores no hash:
    [checkPassword] on the stored identity throws for every attempt, and the
    identity counts as passwordless exactly when it came with a GitHub id. *)
Theorem signUp_without_password (input : SignUpInput) (salt : string) (w : World) :
  Js.truthy_str (in_password input) = false ->
  accepts_writes 3 (store w) ->
  let w' := (signUp input salt w).2 in
  exists row,
    rows (users (store w')) !! next_id (users (store w)) = Some row
    /\ User.passwordHash row = None
    /\ isPasswordless row = Js.truthy_str (in_githubID input)
    /\ (forall attempt w1, checkPassword attempt (row, w1) = (Throw IllegalArguments, (row, w1))).
Proof.
  intros Hp Ha. rewrite (signUp_accepted input salt w Ha). simpl.
  eexists. split; [by rewrite lookup_insert_eq|].
  unfold signUp_user. rewrite Hp. simpl. split; [done|]. split.
  - unfold isPasswordless. simpl. by rewrite andb_true_r.
  - intros attempt w1. by apply checkPassword_without_hash.
Qed.

(** For a hashing scheme that behaves as bcryptjs does: after a change of
    password the new password is accepted; every attempt is judged against
    the hash of the new password alone, as if the old one had never been
    set; and the old password is still accepted when it agrees with the new
    one on its first 72 bytes. *)
Theorem setPassword_replaces_password (u : User.t) (w : World)
    (old new salt1 salt2 : string) :
  bcryptjs_contract H ->
  let change := (setPassword old salt1 ;;; setPassword new salt2) in
  ((change ;;; checkPassword new) (u, w)).1 = Ok true
  /\ (forall attempt,
        ((change ;;; checkPassword attempt) (u, w)).1
        = ((setPassword new salt2 ;;; checkPassword attempt) (u, w)).1)
  /\ User.passwordHash (change (u, w)).2.1 = Some (bcrypt_hash new SALT_ROUNDS salt2)
  /\ (first_72_bytes old = first_72_bytes new ->
        ((change ;;; checkPassword old) (u, w)).1 = Ok true).
Proof.
  intros Hc. simpl.
  unfold bind, setPassword, set_this, modify, checkPassword, this, gets. simpl.
  unfold ret. rewrite (proj1 Hc).
  split; [done|]. split; [done|]. split; [done|].
  intros Hcut. rewrite (proj2 Hc old), Hcut, <- (proj2 Hc new).
  by rewrite (proj1 Hc).
Qed.

End CredentialFlow.

(** ** Secrets and components behind the gate *)

Section MutationFlow.

Import ApplicationMutations.

Lemma save_accepted {A} `{Entity A} (e : A) (st : Store) :
  next_write_ok st ->
  save e st =
  let st1 := set_faults (tl (faults st)) st in
  let t := ent_table st1 in
  match ent_id e with
  | Some i => (Ok e, ent_set_table (mkTable (<[i := e]> (rows t)) (next_id t)) st1)
  | None =>
      (Ok (ent_with_id (next_id t) e),
       ent_set_table (mkTable (<[next_id t := ent_with_id (next_id t) e]> (rows t))
                              (next_id t + 1)) st1)
  end.
Proof.
  intros Hok. unfold save, bind. rewrite (write_gate_ok _ Hok). simpl.
  destruct (ent_id e); reflexivity.
Qed.

Lemma accepts_writes_next (n : nat) (st : Store) :
  accepts_writes (S n) st ->
  next_write_ok st /\ accepts_writes n (set_faults (tl (faults st)) st).
Proof.
  intros Ha. split.
  - specialize (Ha 0%nat ltac:(lia)). unfold next_write_ok.
    destruct (faults st); simpl in *; done.
  - intros i Hi. specialize (Ha (S i) ltac:(lia)).
    destruct st as [a b c d e f g fl]; simpl in *.
    destruct fl; simpl in *; [by destruct i|done].
Qed.

(** An edit rewrites the key and the value of the one Secret it names: the
    Secret keeps its id and its ContainerGroup, and every other Secret and
    every other table stay as they were. *)
Theorem editSecret_rewrites_one_row (o : ApplicationMutations.t) (st : Store)
    (containerGroupID id : Z) (key value : string) (row : Secret.t) :
  rows (secrets st) !! id = Some row ->
  Secret.containerGroup row = Some containerGroupID ->
  Secret.id row = Some id ->
  next_write_ok st ->
  let s := Secret.mk (Some id) key value (Some containerGroupID) in
  exists st',
    editSecret containerGroupID id key value (o, st) = (Ok s, (o, st'))
    /\ rows (secrets st') !! id = Some s
    /\ (forall j, j <> id -> rows (secrets st') !! j = rows (secrets st) !! j)
    /\ next_id (secrets st') = next_id (secrets st)
    /\ containerGroups st' = containerGroups st
    /\ components st' = components st
    /\ applications st' = applications st.
Proof.
  intros E Hc Hi Hok. unfold editSecret, bind, lift, zoom. simpl.
  rewrite (scoped_secret_lookup_finds _ _ _ _ E Hc). simpl.
  rewrite (save_accepted _ _ Hok).
  destruct row as [i k v c]; simpl in *. subst.
  eexists. split; [reflexivity|]. simpl.
  split; [by rewrite lookup_insert_eq|].
  split; [|done]. intros j Hj. by rewrite lookup_insert_ne.
Qed.

(** A delete removes the one Secret it names and returns it; after that the
    same delete, and an edit of that Secret, throw not-found. *)
Theorem deleteSecret_then_not_found (o : ApplicationMutations.t) (st : Store)
    (containerGroupID id : Z) (row : Secret.t) :
  rows (secrets st) !! id = Some row ->
  Secret.containerGroup row = Some containerGroupID ->
  Secret.id row = Some id ->
  next_write_ok st ->
  exists st',
    deleteSecret containerGroupID id (o, st) = (Ok row, (o, st'))
    /\ rows (secrets st') = base.delete id (rows (secrets st))
    /\ deleteSecret containerGroupID id (o, st') = (Throw EntityNotFound, (o, st'))
    /\ (forall key value,
          editSecret containerGroupID id key value (o, st')
          = (Throw EntityNotFound, (o, st'))).
Proof.
  intros E Hc Hi Hok. unfold deleteSecret at 1. unfold bind, lift, zoom. simpl.
  rewrite (scoped_secret_lookup_finds _ _ _ _ E Hc). simpl.
  unfold delete_by_id, bind. rewrite (write_gate_ok _ Hok). simpl. rewrite Hi. simpl.
  eexists. split; [reflexivity|]. simpl. split; [done|].
  assert (Hn : ~ secret_in_group
                 (set_secrets (mkTable (base.delete id (rows (secrets st)))
                                       (next_id (secrets st)))
                              (set_faults (tl (faults st)) st)) id containerGroupID).
  { intros [r [Hr _]]. simpl in Hr. by rewrite lookup_delete_eq in Hr. }
  split.
  - unfold deleteSecret, bind, lift, zoom. simpl.
    by rewrite (scoped_secret_lookup_fails _ _ _ Hn).
  - intros key value. unfold editSecret, bind, lift, zoom. simpl.
    by rewrite (scoped_secret_lookup_fails _ _ _ Hn).
Qed.

(** [addSecret] for a container group that does not exist throws not-found
    and writes nothing. *)
Theorem addSecret_missing_group (o : ApplicationMutations.t) (st : Store)
    (containerGroupID : Z) (key value : string) :
  rows (containerGroups st) !! containerGroupID = None ->
  addSecret containerGroupID key value (o, st) = (Throw EntityNotFound, (o, st)).
Proof.
  intros E. unfold addSecret, orFail, findOne, bind, gets, lift, zoom, ret, throw. simpl.
  by rewrite E.
Qed.

(** Adding a Secret and deleting it again, by the id that [addSecret]
    returned, gives back the rows of Secrets as they were; the sequence of
    ids has moved on, so the id is not handed out again. *)
Theorem addSecret_then_deleteSecret (o : ApplicationMutations.t) (st : Store)
    (containerGroupID : Z) (key value : string) (g : ContainerGroup.t) :
  rows (containerGroups st) !! containerGroupID = Some g ->
  ContainerGroup.id g = Some containerGroupID ->
  rows (secrets st) !! next_id (secrets st) = None ->
  accepts_writes 2 st ->
  let added := Secret.mk (Some (next_id (secrets st))) key value (Some containerGroupID) in
  exists st',
    (s <~ addSecret containerGroupID key value ;;
     deleteSecret containerGroupID (default 0 (Secret.id s))) (o, st)
    = (Ok added, (o, st'))
    /\ rows (secrets st') = rows (secrets st)
    /\ next_id (secrets st') = next_id (secrets st) + 1.
Proof.
  intros E Hg Hfresh Ha.
  apply accepts_writes_next in Ha as [Hok1 Ha].
  apply accepts_writes_next in Ha as [Hok2 _].
  unfold bind at 1. unfold addSecret, orFail, findOne, bind, gets, lift, zoom, ret. simpl.
  rewrite E. simpl. rewrite (save_accepted _ _ Hok1). simpl. rewrite Hg.
  unfold deleteSecret, bind, lift, zoom. simpl.
  erewrite scoped_secret_lookup_finds; [|simpl; by rewrite lookup_insert_eq|done].
  simpl. unfold delete_by_id, bind. rewrite write_gate_ok by exact Hok2. simpl.
  eexists. split; [reflexivity|]. simpl. split; [|done].
  rewrite delete_insert_eq. by apply delete_id.
Qed.

(** When no Application has the given id, the gate throws not-found and the
    field behind it is never run: the store stays as it was, whatever the
    field would do. *)
Theorem through_missing_application {A} (user : User.t) (id : Z)
    (field : M (ApplicationMutations.t * Store) A) (st : Store) :
  rows (applications st) !! id = None ->
  ApplicationMutationsResolver.through user id field st = (Throw EntityNotFound, st).
Proof.
  intros E. unfold ApplicationMutationsResolver.through,
    ApplicationMutationsResolver.application, orFail, findOne, bind, gets, ret, throw.
  simpl. by rewrite E.
Qed.

(** [createComponent] binds the new Component to the application behind the
    gate, whatever the input says, and stores it under the next id; a key
    missing from the input leaves that field without value.  Deleting the
    Component by this id right after gives back the rows of Components. *)
Theorem createComponent_then_deleteComponent (o : ApplicationMutations.t) (st : Store)
    (input : ComponentInput) :
  rows (components st) !! next_id (components st) = None ->
  accepts_writes 2 st ->
  let c := Component.mk (Some (next_id (components st)))
             (Application.id (application o))
             (Js.read (ci_name input)) (Js.read (ci_image input))
             (Js.read (ci_deploymentStrategy input)) in
  (exists st1,
     createComponent input (o, st) = (Ok c, (o, st1))
     /\ rows (components st1) !! next_id (components st) = Some c)
  /\ (exists st2,
        (x <~ createComponent input ;; deleteComponent (default 0 (Component.id x))) (o, st)
        = (Ok c, (o, st2))
        /\ rows (components st2) = rows (components st)).
Proof.
  intros Hfresh Ha.
  apply accepts_writes_next in Ha as [Hok1 Ha].
  apply accepts_writes_next in Ha as [Hok2 _].
  split.
  - unfold createComponent, bind, this, gets, lift, zoom. simpl.
    rewrite (save_accepted _ _ Hok1). simpl.
    eexists. split; [reflexivity|]. simpl. by rewrite lookup_insert_eq.
  - unfold bind at 1. unfold createComponent, bind, this, gets, lift, zoom. simpl.
    rewrite (save_accepted _ _ Hok1). simpl.
    unfold deleteComponent, findByApplicationAndId, orFail, findOneWhere,
      bind, this, gets, lift, zoom, ret. simpl.
    rewrite lookup_insert_eq. simpl. rewrite bool_decide_eq_true_2 by done. simpl.
    unfold delete_by_id, bind. rewrite write_gate_ok by exact Hok2. simpl.
    eexists. split; [reflexivity|]. simpl.
    rewrite delete_insert_eq. by apply delete_id.
Qed.

(** [deleteComponent] removes the row of the Component and no other: the
    ContainerGroups deployed from it and their Secrets stay in the store. *)
Theorem deleteComponent_leaves_descendants (o : ApplicationMutations.t) (st : Store)
    (id : Z) (c : Component.t) :
  rows (components st) !! id = Some c ->
  Component.id c = Some id ->
  Component.application c = Application.id (application o) ->
  next_write_ok st ->
  exists st',
    deleteComponent id (o, st) = (Ok c, (o, st'))
    /\ rows (components st') = base.delete id (rows (components st))
    /\ containerGroups st' = containerGroups st
    /\ secrets st' = secrets st.
Proof.
  intros E Hi Ha Hok.
  unfold deleteComponent, findByApplicationAndId, orFail, findOneWhere,
    bind, this, gets, lift, zoom, ret. simpl.
  rewrite E. simpl. rewrite bool_decide_eq_true_2 by done. simpl.
  unfold delete_by_id, bind. rewrite (write_gate_ok _ Hok). simpl. rewrite Hi.
  eexists. split; [reflexivity|]. done.
Qed.

End MutationFlow.

(** ** API keys *)

Section APIKeyFacts.

Lemma found_key_is_stored (apiKey : string) (t : Table APIKey.t) (k : APIKey.t) :
  head (filter (fun k => APIKey.key k = apiKey) (map_to_list (rows t)).*2) = Some k ->
  APIKey.key k = apiKey /\ exists i, rows t !! i = Some k.
Proof.
  intros Hh. apply head_Some_elem_of in Hh.
  apply list_elem_of_filter in Hh as [Hk Hin]. split; [done|].
  apply list_elem_of_fmap in Hin as [[i k'] [-> Hin]].
  apply elem_of_map_to_list in Hin. by exists i.
Qed.

Lemma no_key_found (apiKey : string) (t : Table APIKey.t) :
  (forall i k, rows t !! i = Some k -> APIKey.key k <> apiKey) ->
  head (filter (fun k => APIKey.key k = apiKey) (map_to_list (rows t)).*2) = None.
Proof.
  intros Hn.
  destruct (head _) as [k|] eqn:E; [|done].
  apply found_key_is_stored in E as [Hk [i Hi]]. by destruct (Hn i k Hi).
Qed.

(** [fromAPIKey] reads the store and never throws.  It yields an identity
    only for a key that a stored API key row carries, and then the identity
    is the stored owner of such a row, with grant kind API key; it yields
    nothing when no row carries the key. *)
Theorem fromAPIKey_grants_owner (apiKey : string) (ks : KeyedStore) :
  (exists r, fromAPIKey apiKey ks = (Ok r, ks))
  /\ (forall u, (fromAPIKey apiKey ks).1 = Ok (Some u) ->
        User.grantType u = API_KEY
        /\ exists i k owner row,
             rows (apiKeys ks) !! i = Some k /\ APIKey.key k = apiKey
             /\ APIKey.user k = Some owner
             /\ rows (users (base ks)) !! owner = Some row
             /\ u = User.set_grantType API_KEY row)
  /\ ((forall i k, rows (apiKeys ks) !! i = Some k -> APIKey.key k <> apiKey) ->
        (fromAPIKey apiKey ks).1 = Ok None)
  /\ (forall i k owner row,
        rows (apiKeys ks) !! i = Some k -> APIKey.key k = apiKey ->
        (forall j k', rows (apiKeys ks) !! j = Some k' -> APIKey.key k' = apiKey ->
                      APIKey.user k' = Some owner) ->
        rows (users (base ks)) !! owner = Some row ->
        (fromAPIKey apiKey ks).1 = Ok (Some (User.set_grantType API_KEY row))).
Proof.
  unfold fromAPIKey, findKeyWithUser, bind, get, ret. simpl.
  split; [by eexists|]. split; [|split].
  - intros u Hu.
    destruct (head _) as [k|] eqn:E; simpl in Hu; [|discriminate].
    apply found_key_is_stored in E as [Hk [i Hi]].
    destruct (APIKey.user k) as [owner|] eqn:Eo; simpl in Hu; [|discriminate].
    destruct (rows (users (base ks)) !! owner) as [row|] eqn:Er; simpl in Hu;
      [|discriminate].
    simplify_eq. split; [done|]. by exists i, k, owner, row.
  - intros Hn. by rewrite no_key_found.
  - intros i k owner row Hi Hk Hall Hrow.
    destruct (head _) as [k'|] eqn:E.
    + apply found_key_is_stored in E as [Hk' [j Hj]].
      simpl. rewrite (Hall j k' Hj Hk'). simpl. by rewrite Hrow.
    + exfalso. apply head_None in E.
      eapply (filter_nil_not_elem_of _ _ k E Hk).
      apply list_elem_of_fmap. exists (i, k). split; [done|].
      by apply elem_of_map_to_list.
Qed.

End APIKeyFacts.

(** ** The further properties at work on the sample *)

Section MoreSample.
#[local] Existing Instance plain_crypto.
Import ApplicationMutations.

Lemma sample_accepts_writes (n : nat) : accepts_writes n sample_store.
Proof. intros i _. by destruct i. Qed.

Lemma signIn_then_fromSession_witness :
  let w' := (signIn TOTP (alice, anonymous_world)).2.2 in
  (fromSession TOTP w').1 = Ok (Some (User.set_grantType SESSION alice))
  /\ (forall other, other <> TOTP -> (fromSession other w').1 = Ok None)
  /\ (TOTP <> FULL -> cookies w' = cookies anonymous_world).
Proof.
  apply (signIn_then_fromSession TOTP alice alice anonymous_world 1);
    [reflexivity | lia | vm_compute; reflexivity].
Defined.

Lemma signIn_unsaved_identity_resolves_nobody_witness :
  fromSession FULL (signIn FULL (User.new, anonymous_world)).2.2
  = (Ok None, (signIn FULL (User.new, anonymous_world)).2.2).
Proof.
  apply (signIn_unsaved_identity_resolves_nobody FULL FULL User.new anonymous_world).
  reflexivity.
Defined.

Lemma second_factor_then_signIn_witness :
  (u <~ fromTOTPSession "JBSWY3DPEHPK3PXP" ;; _ <~ call u (signIn FULL) ;; fromSession FULL)
    pending_world
  = (Ok (Some (User.set_grantType SESSION alice)),
     mkWorld (store pending_world) (Session.mk (Some 1) (Some FULL))
             (display_cookie alice :: cookies pending_world)).
Proof.
  apply (second_factor_then_signIn "JBSWY3DPEHPK3PXP" "JBSWY3DPEHPK3PXP" pending_world 1 alice);
    [reflexivity | lia | reflexivity | vm_compute; reflexivity | reflexivity
    | reflexivity | discriminate | reflexivity].
Defined.

Lemma session_phases_exclusive_witness :
  (fromSession FULL pending_world).1 = Ok None
  /\ (fromTOTPSession "JBSWY3DPEHPK3PXP" full_world).1 = Throw no_totp_session.
Proof.
  split.
  - apply (proj1 (session_phases_exclusive "JBSWY3DPEHPK3PXP" pending_world) alice).
    vm_compute; reflexivity.
  - apply (proj2 (session_phases_exclusive "JBSWY3DPEHPK3PXP" full_world)
             (User.set_grantType SESSION alice)).
    vm_compute; reflexivity.
Defined.

Lemma disableTOTP_then_second_factor_fails_witness :
  let s' := (disableTOTP "wonderland" (alice, pending_world)).2 in
  hasTOTP s'.1 = false
  /\ (fromTOTPSession "JBSWY3DPEHPK3PXP" s'.2).1 = Throw no_user_in_session
  /\ (forall other, disableTOTP other s' = (Ok tt, s')).
Proof.
  apply (disableTOTP_then_second_factor_fails "wonderland" "wonderland" "JBSWY3DPEHPK3PXP"
           alice pending_world 1); try reflexivity. lia.
Defined.

Lemma disableTOTP_failed_write_witness :
  exists w',
    disableTOTP "wonderland" (alice, broken_world)
    = (Throw StoreFailure, (User.set_totpSecret None alice, w'))
    /\ users (store w') = users (store broken_world)
    /\ session w' = session broken_world /\ cookies w' = cookies broken_world.
Proof.
  apply (disableTOTP_failed_write "wonderland" "wonderland" alice broken_world []);
    reflexivity.
Defined.

Lemma signUp_then_fromSession_witness :
  (fromSession FULL (signUp carol_signup "salt" fresh_world).2).1
  = Ok (Some (User.set_grantType SESSION (signUp_user carol_signup "salt" empty_store))).
Proof.
  apply (signUp_then_fromSession carol_signup "salt" fresh_world).
  - intros i _. by destruct i.
  - discriminate.
Defined.

Lemma signUp_without_password_witness :
  exists row,
    rows (users (store (signUp dave_signup "salt" fresh_world).2)) !! 1 = Some row
    /\ User.passwordHash row = None
    /\ isPasswordless row = true
    /\ (forall attempt w1, checkPassword attempt (row, w1) = (Throw IllegalArguments, (row, w1))).
Proof.
  apply (signUp_without_password dave_signup "salt" fresh_world).
  - reflexivity.
  - intros i _. by destruct i.
Defined.

Lemma setPassword_replaces_password_witness :
  ((setPassword (H := truncating_crypto) longer_password "s1" ;;;
    setPassword (H := truncating_crypto) long_password "s2" ;;;
    checkPassword (H := truncating_crypto) long_password) (bob, full_world)).1 = Ok true
  /\ ((setPassword (H := truncating_crypto) longer_password "s1" ;;;
       setPassword (H := truncating_crypto) long_password "s2" ;;;
       checkPassword (H := truncating_crypto) longer_password) (bob, full_world)).1 = Ok true.
Proof.
  split.
  - apply (proj1 (setPassword_replaces_password (H := truncating_crypto) bob full_world
                    longer_password long_password "s1" "s2" truncating_crypto_contract)).
  - apply (proj2 (proj2 (proj2 (setPassword_replaces_password (H := truncating_crypto)
                    bob full_world longer_password long_password "s1" "s2"
                    truncating_crypto_contract)))).
    vm_compute. reflexivity.
Defined.

Lemma update_partial_witness :
  exists st',
    update (mkApplicationInput Js.Null (Js.Given "shop front")) (mk web, sample_store)
    = (Ok (Application.mk (Some 1) (Some "web") (Some "shop front") (Some 1)),
       (mk (Application.mk (Some 1) (Some "web") (Some "shop front") (Some 1)), st'))
    /\ rows (applications st') !! 1
       = Some (Application.mk (Some 1) (Some "web") (Some "shop front") (Some 1)).
Proof.
  apply (update_partial (mkApplicationInput Js.Null (Js.Given "shop front"))
           (mk web) sample_store 1); reflexivity.
Defined.

Lemma updateComponent_assigns_present_keys_witness :
  exists st',
    updateComponent 1 (mkComponentInput Js.Omitted (Js.Given "repo/api:2") Js.Omitted)
      (mk web, sample_store)
    = (Ok (Component.mk (Some 1) (Some 1) (Some "api") (Some "repo/api:2") (Some "RECREATE")),
       (mk web, st'))
    /\ rows (components st') !! 1
       = Some (Component.mk (Some 1) (Some 1) (Some "api") (Some "repo/api:2")
                            (Some "RECREATE")).
Proof.
  apply (updateComponent_assigns_present_keys 1
           (mkComponentInput Js.Omitted (Js.Given "repo/api:2") Js.Omitted)
           (mk web) sample_store api); reflexivity.
Defined.

Lemma editSecret_rewrites_one_row_witness :
  exists st',
    editSecret 1 1 "DB_URL" "postgres://replica" (mk web, sample_store)
    = (Ok (Secret.mk (Some 1) "DB_URL" "postgres://replica" (Some 1)), (mk web, st'))
    /\ rows (secrets st') !! 1 = Some (Secret.mk (Some 1) "DB_URL" "postgres://replica" (Some 1))
    /\ (forall j, j <> 1 -> rows (secrets st') !! j = rows (secrets sample_store) !! j)
    /\ next_id (secrets st') = next_id (secrets sample_store)
    /\ containerGroups st' = containerGroups sample_store
    /\ components st' = components sample_store
    /\ applications st' = applications sample_store.
Proof.
  apply (editSecret_rewrites_one_row (mk web) sample_store 1 1 "DB_URL"
           "postgres://replica" db_url); reflexivity.
Defined.

Lemma deleteSecret_then_not_found_witness :
  exists st',
    deleteSecret 1 1 (mk web, sample_store) = (Ok db_url, (mk web, st'))
    /\ rows (secrets st') = base.delete 1 (rows (secrets sample_store))
    /\ deleteSecret 1 1 (mk web, st') = (Throw EntityNotFound, (mk web, st'))
    /\ (forall key value,
          editSecret 1 1 key value (mk web, st') = (Throw EntityNotFound, (mk web, st'))).
Proof.
  apply (deleteSecret_then_not_found (mk web) sample_store 1 1 db_url); reflexivity.
Defined.

Lemma addSecret_missing_group_witness :
  addSecret 7 "DB_URL" "postgres://db" (mk web, sample_store)
  = (Throw EntityNotFound, (mk web, sample_store)).
Proof.
  apply (addSecret_missing_group (mk web) sample_store 7 "DB_URL" "postgres://db").
  reflexivity.
Defined.

Lemma addSecret_then_deleteSecret_witness :
  exists st',
    (s <~ addSecret 1 "CACHE_URL" "redis://cache" ;;
     deleteSecret 1 (default 0 (Secret.id s))) (mk web, sample_store)
    = (Ok (Secret.mk (Some 2) "CACHE_URL" "redis://cache" (Some 1)), (mk web, st'))
    /\ rows (secrets st') = rows (secrets sample_store)
    /\ next_id (secrets st') = 2 + 1.
Proof.
  apply (addSecret_then_deleteSecret (mk web) sample_store 1 "CACHE_URL" "redis://cache"
           (ContainerGroup.mk (Some 1) (Some 1) (Some 1)));
    [reflexivity | reflexivity | reflexivity | apply sample_accepts_writes].
Defined.

Lemma through_missing_application_witness :
  ApplicationMutationsResolver.through alice 7 ApplicationMutations.delete sample_store
  = (Throw EntityNotFound, sample_store).
Proof.
  apply (through_missing_application alice 7 ApplicationMutations.delete sample_store).
  reflexivity.
Defined.

Lemma createComponent_then_deleteComponent_witness :
  let input := mkComponentInput (Js.Given "worker") Js.Omitted Js.Omitted in
  let c := Component.mk (Some 3) (Some 1) (Some "worker") None None in
  (exists st1,
     createComponent input (mk web, sample_store) = (Ok c, (mk web, st1))
     /\ rows (components st1) !! 3 = Some c)
  /\ (exists st2,
        (x <~ createComponent input ;; deleteComponent (default 0 (Component.id x)))
          (mk web, sample_store)
        = (Ok c, (mk web, st2))
        /\ rows (components st2) = rows (components sample_store)).
Proof.
  apply (createComponent_then_deleteComponent (mk web) sample_store
           (mkComponentInput (Js.Given "worker") Js.Omitted Js.Omitted));
    [reflexivity | apply sample_accepts_writes].
Defined.

Lemma deleteComponent_leaves_descendants_witness :
  exists st',
    deleteComponent 1 (mk web, sample_store) = (Ok api, (mk web, st'))
    /\ rows (components st') = base.delete 1 (rows (components sample_store))
    /\ containerGroups st' = containerGroups sample_store
    /\ secrets st' = secrets sample_store.
Proof.
  apply (deleteComponent_leaves_descendants (mk web) sample_store 1 api); reflexivity.
Defined.

Lemma fromAPIKey_grants_owner_witness :
  (fromAPIKey "key-of-bob" sample_keys).1 = Ok (Some (User.set_grantType API_KEY bob))
  /\ (fromAPIKey "no such key" sample_keys).1 = Ok None.
Proof.
  split.
  - apply (proj2 (proj2 (proj2 (fromAPIKey_grants_owner "key-of-bob" sample_keys)))
             2 (APIKey.mk (Some 2) "key-of-bob" "laptop" (Some 2)) 2 bob);
      [vm_compute; reflexivity | reflexivity | | vm_compute; reflexivity].
    intros j k' Hj Hk.
    apply elem_of_map_to_list in Hj. vm_compute in Hj.
    repeat (apply elem_of_cons in Hj as [Hj|Hj]; [by simplify_eq|]).
    by apply elem_of_nil in Hj.
  - apply (proj1 (proj2 (proj2 (fromAPIKey_grants_owner "no such key" sample_keys)))).
    intros j k' Hj.
    apply elem_of_map_to_list in Hj. vm_compute in Hj.
    repeat (apply elem_of_cons in Hj as [Hj|Hj]; [by simplify_eq|]).
    by apply elem_of_nil in Hj.
Defined.

End MoreSample.
